(** * TrainingConfig: the configuration schema and its persistence layer

    A shallow embedding of [dreambooth/dataclasses/training_config.py]:
    the name sanitiser, the constructor, the migration shim
    [validate_param], the generic loader [load_params], [save], [concepts],
    [get_pretrained_model_name_or_path] and the three loading entry points
    [refresh], [load_from_file] and [from_file].

    Python values are modelled as they sit in the JSON file (a tagged
    union), a Python [str] as the list of its code points, a [dict] as an
    association list in insertion order, and the mutable surroundings (file
    system, the [shared] module, everything printed or logged) as one
    explicit [world] that is threaded through every call together with the
    object the method runs on.  Exceptions do not undo mutations, therefore
    a computation returns its outcome next to the state it left behind. *)

From Stdlib Require Import List ZArith NArith Bool String Ascii Lia PrimFloat.
From Stdlib Require Import DecimalString.
Import ListNotations.

Set Warnings "-register-all,-inexact-float".

(** ** Python strings *)

(** A character is its Unicode code point. *)
Definition char := N.
Definition str := list char.

(** [py "abc"] is the Python literal ["abc"]. *)
Definition py (s : string) : str := map N_of_ascii (list_ascii_of_string s).
Arguments py s%_string.

Fixpoint str_eqb (a b : str) : bool :=
  match a, b with
  | [], [] => true
  | x :: a', y :: b' => N.eqb x y && str_eqb a' b'
  | _, _ => false
  end.

(** [s.startswith(p)] *)
Fixpoint is_prefix (p s : str) : bool :=
  match p, s with
  | [], _ => true
  | x :: p', y :: s' => N.eqb x y && is_prefix p' s'
  | _ :: _, [] => false
  end.

(** [p in s] for two strings: substring test. *)
Fixpoint is_infix (p s : str) : bool :=
  match s with
  | [] => is_prefix p []
  | _ :: s' => is_prefix p s || is_infix p s'
  end.

(** [s.replace(old, new)] for a non-empty [old]: occurrences are found left
    to right and do not overlap.  [skip] counts the characters of a matched
    occurrence that are still to be dropped. *)
Fixpoint replace_from (old new : str) (skip : nat) (s : str) : str :=
  match s with
  | [] => []
  | c :: t =>
      match skip with
      | S k => replace_from old new k t
      | O =>
          if is_prefix old s
          then new ++ replace_from old new (List.length old - 1) t
          else c :: replace_from old new 0 t
      end
  end.

Definition replace (old new s : str) : str := replace_from old new 0 s.

(** [str(n)] for an int. *)
Definition str_of_int (n : Z) : str := py (NilEmpty.string_of_int (Z.to_int n)).

(** ** Python values *)

Inductive pyvalue :=
| VNone
| VBool (b : bool)
| VInt (n : Z)
| VFloat (f : float)
| VStr (s : str)
| VList (l : list pyvalue)
| VDict (d : list (str * pyvalue)).

(** A [dict] with string keys, in insertion order. *)
Definition dict := list (str * pyvalue).

Fixpoint dict_get (k : str) (d : dict) : option pyvalue :=
  match d with
  | [] => None
  | (k', v) :: d' => if str_eqb k k' then Some v else dict_get k d'
  end.

Definition dict_has (k : str) (d : dict) : bool :=
  match dict_get k d with Some _ => true | None => false end.

(** [d[k] = v]: an existing key keeps its place, a new key goes last. *)
Fixpoint dict_set (k : str) (v : pyvalue) (d : dict) : dict :=
  match d with
  | [] => [(k, v)]
  | (k', v') :: d' =>
      if str_eqb k k' then (k', v) :: d' else (k', v') :: dict_set k v d'
  end.

Definition keys (d : dict) : list str := map fst d.

(** Truth value of an object, as [if x:] tests it. *)
Definition truthy (v : pyvalue) : bool :=
  match v with
  | VNone => false
  | VBool b => b
  | VInt n => negb (Z.eqb n 0)
  | VFloat f => negb (PrimFloat.eqb f 0%float)
  | VStr s => match s with [] => false | _ => true end
  | VList l => match l with [] => false | _ => true end
  | VDict d => match d with [] => false | _ => true end
  end.

(** The literals of the source that values are compared with. *)
Inductive literal :=
| LBool (b : bool)
| LStr (s : str).

Definition value_of (l : literal) : pyvalue :=
  match l with
  | LBool b => VBool b
  | LStr s => VStr s
  end.

(** [v == True] and [v == False]: [bool] is a subclass of [int], so [1],
    [1.0] and [True] are all equal, and so are [0], [0.0], [-0.0] and
    [False]. *)
Definition py_eq_bool (v : pyvalue) (b : bool) : bool :=
  match v with
  | VBool c => Bool.eqb c b
  | VInt n => Z.eqb n (if b then 1 else 0)
  | VFloat f => PrimFloat.eqb f (if b then 1%float else 0%float)
  | _ => false
  end.

(** [v == "..."] *)
Definition py_eq_str (v : pyvalue) (s : str) : bool :=
  match v with
  | VStr t => str_eqb t s
  | _ => false
  end.

Definition py_eq (v : pyvalue) (l : literal) : bool :=
  match l with
  | LBool b => py_eq_bool v b
  | LStr s => py_eq_str v s
  end.

(** [v in [l1, l2, ...]]: membership in a list is decided by [==]. *)
Definition py_in (v : pyvalue) (ls : list literal) : bool := existsb (py_eq v) ls.

(** ** The migration shim *)

(** One entry of a ["values"] list: [{"old": [...], "new": ...}]. *)
Record value_rule := { old : list literal; new : literal }.

(** One entry of [replaced_params]; both keys are optional. *)
Record replacement := {
  new_key : option str;
  values : option (list value_rule)
}.

Definition replaced_params : list (str * replacement) :=
  [ (py "weight_decay",
      {| new_key := Some (py "weight_decay"); values := None |});
    (py "deis_train_scheduler",
      {| new_key := Some (py "noise_scheduler");
         values := Some [ {| old := [LBool true]; new := LStr (py "DDPM") |} ] |});
    (py "optimizer",
      {| new_key := None;
         values := Some [ {| old := [LStr (py "8Bit Adam")];
                             new := LStr (py "8bit AdamW") |} ] |});
    (py "save_safetensors",
      {| new_key := None;
         values := Some [ {| old := [LBool false]; new := LBool true |} ] |}) ].

Fixpoint table_get (k : str) (t : list (str * replacement)) : option replacement :=
  match t with
  | [] => None
  | (k', r) :: t' => if str_eqb k k' then Some r else table_get k t'
  end.

(** The body of [for _value in replacement["values"]]: the loop has no
    [break], so a later rule sees the value an earlier one produced. *)
Definition apply_rule (value : pyvalue) (_value : value_rule) : pyvalue :=
  if py_in value (old _value) then value_of (new _value) else value.

Definition migrate (table : list (str * replacement)) (key : str) (value : pyvalue)
  : str * pyvalue :=
  match table_get key table with
  | Some replacement =>
      let key := match new_key replacement with
                 | Some k => k
                 | None => key
                 end in
      let value := match values replacement with
                   | Some rules => fold_left apply_rule rules value
                   | None => value
                   end in
      (key, value)
  | None => (key, value)
  end.

Definition validate_param (key : str) (value : pyvalue) : str * pyvalue :=
  migrate replaced_params key value.

(** ** Outcomes, state and the small monad the methods run in *)

(** The exceptions the modelled code can meet; all are subclasses of
    [Exception], so [except Exception] catches each of them. *)
Inductive exn :=
| FileNotFoundError
| IsADirectoryError
| FileExistsError
| JSONDecodeError
| AttributeError
| TypeError
| KeyError
| IndexError
| OtherError (tag : str).

Inductive outcome (A : Type) :=
| Return (a : A)
| Raise (e : exn).
Arguments Return {A} a.
Arguments Raise {A} e.

(** A computation over a state [S]: an exception leaves the state as the
    computation had changed it so far. *)
Definition M (S A : Type) : Type := S -> outcome A * S.

Definition ret {S A} (a : A) : M S A := fun s => (Return a, s).

Definition raise {S A} (e : exn) : M S A := fun s => (Raise e, s).

Definition bind {S A B} (m : M S A) (k : A -> M S B) : M S B :=
  fun s =>
    match m s with
    | (Return a, s') => k a s'
    | (Raise e, s') => (Raise e, s')
    end.

(** [try: body  except Exception as e: handler(e)] *)
Definition try_except {S A} (body : M S A) (handler : exn -> M S A) : M S A :=
  fun s =>
    match body s with
    | (Return a, s') => (Return a, s')
    | (Raise e, s') => handler e s'
    end.

Definition gets {S A} (f : S -> A) : M S A := fun s => (Return (f s), s).

Definition modify {S} (f : S -> S) : M S unit := fun s => (Return tt, f s).

Definition lift_outcome {S A} (o : outcome A) : M S A := fun s => (o, s).

Declare Scope py_scope.
Delimit Scope py_scope with py_do.
Notation "x <- c1 ;; c2" := (bind c1 (fun x => c2))
  (at level 61, c1 at next level, right associativity) : py_scope.
Notation "' pat <- c1 ;; c2" := (bind c1 (fun x => match x with pat => c2 end))
  (at level 61, pat pattern, c1 at next level, right associativity) : py_scope.
Notation "c1 ;; c2" := (bind c1 (fun _ => c2))
  (at level 61, right associativity) : py_scope.
Local Open Scope py_scope.

(** ** The world outside the configuration object *)

(** What a file holds: the document [json.dump] wrote, or text that
    [json.load] rejects. *)
Inductive file :=
| Json (doc : pyvalue)
| Malformed (text : str).

Inductive node :=
| Dir
| File (f : file).

(** The file system, keyed by the path string as the code builds it. *)
Definition filesystem := list (str * node).

Fixpoint fs_get (p : str) (f : filesystem) : option node :=
  match f with
  | [] => None
  | (p', n) :: f' => if str_eqb p p' then Some n else fs_get p f'
  end.

Fixpoint fs_set (p : str) (n : node) (f : filesystem) : filesystem :=
  match f with
  | [] => [(p, n)]
  | (p', n') :: f' =>
      if str_eqb p p' then (p', n) :: f' else (p', n') :: fs_set p n f'
  end.

(** Everything the code prints or logs, oldest first. *)
Inductive log_entry :=
| Print_using_models_path (models_path : pyvalue)
| Print_replacing_flash_attention (value : str)
| Print_updating_scheduler_name (scheduler : str)
| Print_exception_loading_config (e : exn)
| Print_traceback (e : exn)
| Debug_saving_to (models_path : pyvalue).

(** The attributes of the module [dreambooth.shared] that the code reads
    and writes. *)
Record shared_module := {
  dreambooth_models_path : pyvalue;
  models_path : str;
  paths : dict;
  db_model_config : option dict
}.

Record world := {
  fs : filesystem;
  shared : shared_module;
  log : list log_entry
}.

Definition with_fs (f : filesystem) (w : world) : world :=
  {| fs := f; shared := shared w; log := log w |}.

Definition with_shared (sh : shared_module) (w : world) : world :=
  {| fs := fs w; shared := sh; log := log w |}.

Definition with_log (l : list log_entry) (w : world) : world :=
  {| fs := fs w; shared := shared w; log := l |}.

(** [print(...)], [logger.debug(...)], [traceback.print_exc()] *)
Definition emit (e : log_entry) : M world unit :=
  modify (fun w => with_log (log w ++ [e]) w).

(** [os.path.exists(p)] *)
Definition path_exists (p : str) : M world bool :=
  gets (fun w => match fs_get p (fs w) with Some _ => true | None => false end).

(** [os.makedirs(p)]: the directory [p] itself.  The file system is keyed by
    whole paths, so the parents of [p], which the call also creates where
    they are missing (and which make it fail where one of them is a regular
    file), are not looked at: what is stated about other paths below is
    stated where the parent is in place. *)
Definition makedirs (p : str) : M world unit :=
  fun w =>
    match fs_get p (fs w) with
    | Some _ => (Raise FileExistsError, w)
    | None => (Return tt, with_fs (fs_set p Dir (fs w)) w)
    end.

(** [with open(p, 'r') as f: json.load(f)] *)
Definition read_json (p : str) : M world pyvalue :=
  fun w =>
    match fs_get p (fs w) with
    | None => (Raise FileNotFoundError, w)
    | Some Dir => (Raise IsADirectoryError, w)
    | Some (File (Malformed _)) => (Raise JSONDecodeError, w)
    | Some (File (Json doc)) => (Return doc, w)
    end.

(** [with open(p, "w") as f: json.dump(doc, f, indent=4)], the directory of
    [p] being in place: as for [makedirs], the parent of [p] is not looked
    at. *)
Definition write_json (p : str) (doc : pyvalue) : M world unit :=
  fun w =>
    match fs_get p (fs w) with
    | Some Dir => (Raise IsADirectoryError, w)
    | _ => (Return tt, with_fs (fs_set p (File (Json doc)) (fs w)) w)
    end.

(** A method runs on its object and the world: [self] is the instance's
    [__dict__], the attributes [save] dumps. *)
Record state := {
  self : dict;
  outside : world
}.

Definition with_self (d : dict) (s : state) : state :=
  {| self := d; outside := outside s |}.

(** Run a computation on the world inside a method. *)
Definition in_world {A} (m : M world A) : M state A :=
  fun s =>
    match m (outside s) with
    | (o, w') => (o, {| self := self s; outside := w' |})
    end.

(** Run a method on an object [d], and hand back the object with the result. *)
Definition on_object {A} (d : dict) (m : M state A) : M world (A * dict) :=
  fun w =>
    match m {| self := d; outside := w |} with
    | (Return a, s') => (Return (a, self s'), outside s')
    | (Raise e, s') => (Raise e, outside s')
    end.

(** Modelled from the spec: [Concept] (dreambooth/dataclasses/db_concept.py is
    not among the sources) is "a per-training-subject descriptor (instance
    data directory, class data directory, prompts) with a validity
    predicate". *)
Record Concept := {
  instance_data_dir : pyvalue;
  class_data_dir : pyvalue;
  prompts : dict;
  is_valid : bool
}.

(** ** The collaborators that are not part of the modelled file

    Python's own library, the operating system, and the modules of the
    repository that the file imports but whose source is not available. *)
Class Host := {
  (** [x.isalnum()] for a single character *)
  char_isalnum : char -> bool;
  (** [s.lower()] *)
  str_lower : str -> str;
  (** [str(x)] for the values whose text is not modelled: floats, lists, dicts *)
  str_of_other : pyvalue -> str;
  (** [os.name] *)
  os_name : str;
  (** [os.path.join(a, *p)] *)
  path_join : str -> list str -> str;
  (** [dreambooth.utils.image_utils.get_scheduler_names()] *)
  get_scheduler_names : list str;
  (** [dreambooth.utils.utils.list_attention()] *)
  list_attention : list str;
  (** the names [hasattr] finds on the class [TrainingConfig] and its bases
      rather than in the instance: methods and class variables *)
  class_attr : str -> bool;
  (** [Concept(input_dict=d)], and [Concept(None)] for [None] *)
  Concept_new : option pyvalue -> Concept;
  (** [BaseConfig.load_from_file(self, model_dir)] *)
  base_load_from_file : pyvalue -> M state unit;
  (** [concepts_from_file(concepts_path)], the concepts file read into a
      list of concept dictionaries *)
  concepts_from_file : pyvalue -> M world (list pyvalue)
}.

Arguments VFloat f%_float.

(** ** The declared fields

    The fields of [TrainingConfig] in declaration order, each with the
    default its [Field(...)] gives. *)
Definition default_fields : dict :=
  [
    (py "train_mode", VStr (py "Default"));
    (py "controlnet_model_name", VStr (py ""));
    (py "num_train_epochs", VInt 100);
    (py "train_batch_size", VInt 1);
    (py "resolution", VInt 512);
    (py "gradient_accumulation_steps", VInt 1);
    (py "sample_batch_size", VInt 1);
    (py "pretrained_vae_name_or_path", VStr (py ""));
    (py "noise_scheduler", VStr (py "DDPM"));
    (py "train_ema", VBool false);
    (py "train_lora", VBool false);
    (py "train_oft", VBool false);
    (py "concepts_list", VList []);
    (py "disable_class_matching", VBool false);
    (py "train_data_dir", VNone);
    (py "use_dir_tags", VBool false);
    (py "attention", VStr (py "xformers"));
    (py "mixed_precision", VStr (py "no"));
    (py "max_grad_norm", VFloat 1.0);
    (py "gradient_checkpointing", VBool true);
    (py "gradient_set_to_none", VBool true);
    (py "cache_latents", VBool true);
    (py "cpu_only", VBool false);
    (py "optimizer", VStr (py "8bit AdamW"));
    (py "adam_beta1", VFloat 0.9);
    (py "adam_beta2", VFloat 0.999);
    (py "adam_epsilon", VFloat 0.00000001);
    (py "adam_weight_decay", VFloat 0.01);
    (py "lr_scheduler", VStr (py "constant_with_warmup"));
    (py "lr_warmup_steps", VInt 500);
    (py "learning_rate", VFloat 5e-6);
    (py "learning_rate_txt", VFloat 5e-6);
    (py "learning_rate_lora", VFloat 5e-5);
    (py "learning_rate_lora_txt", VFloat 5e-5);
    (py "learning_rate_min", VFloat 1e-6);
    (py "lr_factor", VFloat 0.5);
    (py "lr_num_cycles", VInt 1);
    (py "lr_power", VFloat 1.0);
    (py "lr_scale_pos", VFloat 0.5);
    (py "stop_text_encoder", VFloat 1.0);
    (py "clip_skip", VInt 1);
    (py "tenc_weight_decay", VFloat 0.01);
    (py "tenc_grad_clip_norm", VFloat 0.00);
    (py "train_unfrozen", VBool true);
    (py "freeze_clip_normalization", VBool false);
    (py "lora_model_name", VStr (py ""));
    (py "lora_txt_rank", VInt 4);
    (py "lora_txt_weight", VFloat 1.0);
    (py "lora_unet_rank", VInt 4);
    (py "lora_weight", VFloat 1.0);
    (py "oft_model_name", VStr (py ""));
    (py "oft_eps", VFloat 0.1);
    (py "oft_rank", VInt 4);
    (py "oft_coft", VBool true);
    (py "prior_loss_scale", VBool false);
    (py "prior_loss_target", VInt 100);
    (py "prior_loss_weight", VFloat 0.75);
    (py "prior_loss_weight_min", VFloat 0.1);
    (py "proportion_empty_prompts", VInt 0);
    (py "split_loss", VBool true);
    (py "train_unet", VBool true);
    (py "epoch", VInt 0);
    (py "lifetime_revision", VInt 0);
    (py "model_dir", VStr (py ""));
    (py "model_name", VStr (py ""));
    (py "model_path", VStr (py ""));
    (py "pretrained_model_name_or_path", VStr (py ""));
    (py "revision", VInt 0);
    (py "scheduler", VStr (py "ddim"));
    (py "src", VStr (py ""));
    (py "v2", VBool false);
    (py "dynamic_img_norm", VBool false);
    (py "hflip", VBool false);
    (py "input_pertubation", VFloat 0.1);
    (py "offset_noise", VInt 0);
    (py "max_token_length", VInt 75);
    (py "pad_tokens", VBool true);
    (py "shuffle_tags", VBool true);
    (py "strict_tokens", VBool false);
    (py "checkpoint", VNone);
    (py "checkpoints_total_limit", VInt 0);
    (py "max_train_samples", VNone);
    (py "disable_logging", VBool false);
    (py "graph_smoothing", VFloat 0.1);
    (py "num_save_samples", VInt 4);
    (py "sanity_prompt", VStr (py ""));
    (py "save_on_cancel", VBool true);
    (py "save_embedding_every", VInt 25);
    (py "save_preview_every", VInt 5);
    (py "seed", VInt 420420);
    (py "simulate_training", VBool false);
    (py "snr_gamma", VFloat 5.0);
    (py "tomesd", VBool true)  ].

(** The names the class body itself binds besides the fields: four class
    variables and the methods. *)
Definition class_body_names : list str :=
  [ py "precisions"; py "attentions"; py "optimizers"; py "schedulers";
    py "__init__"; py "save"; py "load_params"; py "validate_param";
    py "concepts"; py "refresh"; py "get_pretrained_model_name_or_path";
    py "load_from_file" ].

Definition backslash : str := [92%N].

Definition is_none (v : pyvalue) : bool :=
  match v with VNone => true | _ => false end.

(** [os.fspath(v)] as [os.path.join] applies it to each argument. *)
Definition as_path (v : pyvalue) : outcome str :=
  match v with
  | VStr s => Return s
  | _ => Raise TypeError
  end.

(** [sep in v] *)
Definition contains (sep : str) (v : pyvalue) : outcome bool :=
  match v with
  | VStr s => Return (is_infix sep s)
  | VList l => Return (existsb (fun x => py_eq_str x sep) l)
  | VDict d => Return (dict_has sep d)
  | _ => Raise TypeError
  end.

(** [v.replace(a, b)] *)
Definition replace_in (a b : str) (v : pyvalue) : outcome pyvalue :=
  match v with
  | VStr s => Return (VStr (replace a b s))
  | _ => Raise AttributeError
  end.

(** [len(v)] *)
Definition len (v : pyvalue) : outcome Z :=
  match v with
  | VStr s => Return (Z.of_nat (List.length s))
  | VList l => Return (Z.of_nat (List.length l))
  | VDict d => Return (Z.of_nat (List.length d))
  | _ => Raise TypeError
  end.

(** [for x in v] *)
Definition iterate (v : pyvalue) : outcome (list pyvalue) :=
  match v with
  | VStr s => Return (map (fun c => VStr [c]) s)
  | VList l => Return l
  | VDict d => Return (map (fun kv => VStr (fst kv)) d)
  | _ => Raise TypeError
  end.

(** [v.items()] *)
Definition items (v : pyvalue) : outcome dict :=
  match v with
  | VDict d => Return d
  | _ => Raise AttributeError
  end.

(** [l[-1]] *)
Fixpoint last_item {A} (l : list A) : outcome A :=
  match l with
  | [] => Raise IndexError
  | [x] => Return x
  | _ :: l' => last_item l'
  end.

Definition set_class_data_dir (v : pyvalue) (c : Concept) : Concept :=
  {| instance_data_dir := instance_data_dir c;
     class_data_dir := v;
     prompts := prompts c;
     is_valid := is_valid c |}.

(** [self.name] *)
Definition getattr (name : str) : M state pyvalue :=
  fun s =>
    match dict_get name (self s) with
    | Some v => (Return v, s)
    | None => (Raise AttributeError, s)
    end.

(** [self.name = v] and [setattr(self, name, v)] for a field of the object.
    A name that is no field (a method, a class variable) is refused by the
    base class, which is not among the sources; that case is left out. *)
Definition setattr (name : str) (v : pyvalue) : M state unit :=
  modify (fun s => with_self (dict_set name v (self s)) s).

Section Model.

Context {host : Host}.

(** [f"{v}"] *)
Definition py_str (v : pyvalue) : str :=
  match v with
  | VNone => py "None"
  | VBool true => py "True"
  | VBool false => py "False"
  | VInt n => str_of_int n
  | VStr s => s
  | _ => str_of_other v
  end.

(** [x.isalnum()]: every character is alphanumeric and there is at least one. *)
Definition str_isalnum (x : str) : bool :=
  match x with
  | [] => false
  | _ => forallb char_isalnum x
  end.

(** [sanitize_name]: iterating a string yields its characters as strings of
    length one; [x in "._- "] is a substring test; the kept ones are joined
    with the empty separator. *)
Definition sanitize_name (name : str) : str :=
  List.concat (filter (fun x => str_isalnum x || is_infix x (py "._- "))
                 (map (fun c => [c]) name)).

(** [hasattr(self, name)]: the instance's own attributes, then the class. *)
Definition hasattr (d : dict) (name : str) : bool :=
  dict_has name d || class_attr name.

(** The separator fix-up at the head of [save]. *)
Definition normalise_separators (models_path : pyvalue) : outcome pyvalue :=
  if str_eqb os_name (py "nt") then
    match contains (py "/") models_path with
    | Return true => replace_in (py "/") backslash models_path
    | Return false => Return models_path
    | Raise e => Raise e
    end
  else if str_eqb os_name (py "posix") then
    match contains backslash models_path with
    | Return true => replace_in backslash (py "/") models_path
    | Return false => Return models_path
    | Raise e => Raise e
    end
  else Return models_path.

Definition save (backup : bool) : M state unit :=
  models_path <- getattr (py "model_dir") ;;
  in_world (emit (Debug_saving_to models_path)) ;;
  models_path <- lift_outcome (normalise_separators models_path) ;;
  setattr (py "model_dir") models_path ;;
  dir <- lift_outcome (as_path models_path) ;;
  let config_file := path_join dir [py "db_config.json"] in
  config_file <-
    (if backup then
       let backup_dir := path_join dir [py "backups"] in
       present <- in_world (path_exists backup_dir) ;;
       (if present then ret tt else in_world (makedirs backup_dir)) ;;
       revision <- getattr (py "revision") ;;
       ret (path_join dir [py "backups";
                           py "db_config_" ++ py_str revision ++ py ".json"])
     else ret config_file) ;;
  d <- gets self ;;
  in_world (write_json config_file (VDict d)).

(** The inner [for scheduler in schedulers] with its [break]. *)
Fixpoint swap_scheduler (value : pyvalue) (schedulers : list str) : M state pyvalue :=
  match schedulers with
  | [] => ret value
  | scheduler :: rest =>
      match value with
      | VStr s =>
          if is_infix (str_lower s) (str_lower scheduler)
          then in_world (emit (Print_updating_scheduler_name scheduler)) ;;
               ret (VStr scheduler)
          else swap_scheduler value rest
      | _ => raise AttributeError
      end
  end.

(** [key.replace("db_", "")] under its guard ["db_" in key]. *)
Definition strip_db (key : str) : str :=
  if is_infix (py "db_") key then replace (py "db_") (py "") key else key.

(** One turn of the loop of [load_params]; the result is [sched_swap]. *)
Definition load_param (sched_swap : bool) (entry : str * pyvalue) : M state bool :=
  let key := strip_db (fst entry) in
  let value := snd entry in
  value <-
    (if str_eqb key (py "attention") && py_eq_str value (py "flash_attention")
     then value <- lift_outcome (last_item list_attention) ;;
          in_world (emit (Print_replacing_flash_attention value)) ;;
          ret (VStr value)
     else ret value) ;;
  vs <-
    (if str_eqb key (py "scheduler") then
       let schedulers := get_scheduler_names in
       if negb (existsb (py_eq_str value) schedulers) then
         value <- swap_scheduler value schedulers ;;
         ret (value, true)
       else ret (value, sched_swap)
     else ret (value, sched_swap)) ;;
  let value := fst vs in
  let sched_swap := snd vs in
  d <- gets self ;;
  if hasattr d key then
    let kv := validate_param key value in
    setattr (fst kv) (snd kv) ;;
    ret sched_swap
  else ret sched_swap.

Fixpoint load_params_loop (sched_swap : bool) (entries : dict) : M state bool :=
  match entries with
  | [] => ret sched_swap
  | entry :: rest =>
      sched_swap <- load_param sched_swap entry ;;
      load_params_loop sched_swap rest
  end.

Definition load_params (params_dict : pyvalue) : M state unit :=
  entries <- lift_outcome (items params_dict) ;;
  sched_swap <- load_params_loop false entries ;;
  if sched_swap then save false else ret tt.

(** The loop of [concepts]: [concepts] collects the valid ones, [c_idx]
    counts them. *)
Fixpoint concepts_loop (concepts_list : list pyvalue) (concepts : list Concept)
    (c_idx : Z) : M state (list Concept) :=
  match concepts_list with
  | [] => ret concepts
  | concept_dict :: rest =>
      let concept := Concept_new (Some concept_dict) in
      if is_valid concept then
        concept <-
          (if py_eq_str (class_data_dir concept) (py "")
              || is_none (class_data_dir concept)
           then model_dir <- getattr (py "model_dir") ;;
                dir <- lift_outcome (as_path model_dir) ;;
                ret (set_class_data_dir
                       (VStr (path_join dir [py "classifiers_" ++ str_of_int c_idx]))
                       concept)
           else ret concept) ;;
        concepts_loop rest (concepts ++ [concept]) (c_idx + 1)
      else concepts_loop rest concepts c_idx
  end.

Definition concepts (required : Z) : M state (list Concept) :=
  train_mode <- getattr (py "train_mode") ;;
  concepts_list <-
    (if py_eq_str train_mode (py "db") then
       concepts_path <- getattr (py "concepts_path") ;;
       if truthy concepts_path && Z.eqb required (-1) then
         l <- in_world (concepts_from_file concepts_path) ;;
         ret (VList l)
       else getattr (py "concepts_list")
     else getattr (py "concepts_list")) ;;
  required <-
    (if Z.eqb required (-1) then lift_outcome (len concepts_list)
     else ret required) ;;
  dicts <- lift_outcome (iterate concepts_list) ;;
  concepts <- concepts_loop dicts [] 0 ;;
  let missing := (Z.of_nat (List.length concepts) - required)%Z in
  if (0 <? missing)%Z
  then ret (concepts ++ repeat (Concept_new None) (Z.to_nat missing))
  else ret concepts.

(** [shared.dreambooth_models_path], or [<shared.models_path>/dreambooth]
    when that is empty or [None]. *)
Definition default_models_path : M world pyvalue :=
  sh <- gets shared ;;
  let shared_models_path := models_path sh in
  let models_path := dreambooth_models_path sh in
  if py_eq_str models_path (py "") || is_none models_path
  then ret (VStr (path_join shared_models_path [py "dreambooth"]))
  else ret models_path.

Definition set_dreambooth_models_path (v : pyvalue) (w : world) : world :=
  with_shared {| dreambooth_models_path := v;
                 models_path := models_path (shared w);
                 paths := paths (shared w);
                 db_model_config := db_model_config (shared w) |} w.

Definition set_db_model_config (config : dict) (w : world) : world :=
  with_shared {| dreambooth_models_path := dreambooth_models_path (shared w);
                 models_path := models_path (shared w);
                 paths := paths (shared w);
                 db_model_config := Some config |} w.

(** The [except Exception as e] branch shared by the three loaders. *)
Definition report_exception (e : exn) : M world unit :=
  emit (Print_exception_loading_config e) ;;
  emit (Print_traceback e).

(** [refresh] returns [None] on both paths. *)
Definition refresh : M state (option dict) :=
  models_path <- in_world default_models_path ;;
  model_name <- getattr (py "model_name") ;;
  dir <- lift_outcome (as_path models_path) ;;
  name <- lift_outcome (as_path model_name) ;;
  let config_file := path_join dir [name; py "db_config.json"] in
  try_except
    (config_dict <- in_world (read_json config_file) ;;
     load_params config_dict ;;
     d <- gets self ;;
     in_world (modify (set_db_model_config d)) ;;
     ret None)
    (fun e => in_world (report_exception e) ;; ret None).

(** [load_from_file] returns [self] ([Some] of the object) or [None]. *)
Definition load_from_file (model_dir : pyvalue) : M state (option dict) :=
  dir <- lift_outcome (as_path model_dir) ;;
  let config_file := path_join dir [py "db_config.json"] in
  try_except
    (config_dict <- in_world (read_json config_file) ;;
     base_load_from_file model_dir ;;
     load_params config_dict ;;
     d <- gets self ;;
     ret (Some d))
    (fun e => in_world (report_exception e) ;; ret None).

(** Modelled from the spec: [BaseConfig.__init__] (pydantic's model
    constructor; dreambooth/dataclasses/base_config.py is not among the
    sources).  "A configuration instance is constructed fresh (from defaults
    merged with constructor keyword overrides)": every declared field takes
    its keyword argument when one is given and its default otherwise;
    keywords that name no field are dropped.  The checks and conversions of
    the base class (types, bounds, choices), which make the real constructor
    raise on a keyword the field does not admit, and the fields the base
    class itself declares, are not modelled. *)
Definition base_init (kwargs : dict) : dict :=
  map (fun field => (fst field,
                     match dict_get (fst field) kwargs with
                     | Some v => v
                     | None => snd field
                     end))
      default_fields.

(** [models_path] as [__init__] settles it. *)
Definition init_models_path (kwargs : dict) : M world pyvalue :=
  match dict_get (py "models_path") kwargs with
  | Some models_path =>
      emit (Print_using_models_path models_path) ;;
      ret models_path
  | None =>
      models_path <- default_models_path ;;
      sh <- gets shared ;;
      match paths sh with
      | [] => ret models_path
      | _ :: _ =>
          match dict_get (py "models") (paths sh) with
          | Some models => dir <- lift_outcome (as_path models) ;;
                           ret (VStr (path_join dir [py "dreambooth"]))
          | None => raise KeyError
          end
      end
  end.

(** [if name in kwargs: self.name = kwargs[name]] *)
Definition copy_kwarg (kwargs : dict) (name : str) : M state unit :=
  match dict_get name kwargs with
  | Some v => setattr name v
  | None => ret tt
  end.

(** [TrainingConfig.__init__(self, **kwargs)]; the field [model_name] is
    declared [str], another value is refused. *)
Definition TrainingConfig_init (kwargs : dict) : M state unit :=
  modify (with_self (base_init kwargs)) ;;
  match dict_get (py "model_name") kwargs with
  | Some model_name =>
      model_name <- lift_outcome (as_path model_name) ;;
      let model_name := sanitize_name model_name in
      models_path <- in_world (init_models_path kwargs) ;;
      train_lora <- getattr (py "train_lora") ;;
      (if truthy train_lora then ret tt
       else setattr (py "lora_model_name") (VStr [])) ;;
      dir <- lift_outcome (as_path models_path) ;;
      let model_dir := path_join dir [model_name] in
      let working_dir := path_join model_dir [py "working"] in
      present <- in_world (path_exists working_dir) ;;
      (if present then ret tt else in_world (makedirs working_dir)) ;;
      setattr (py "model_name") (VStr model_name) ;;
      setattr (py "model_dir") (VStr model_dir) ;;
      setattr (py "pretrained_model_name_or_path") (VStr working_dir)
  | None => ret tt
  end ;;
  copy_kwarg kwargs (py "resolution") ;;
  copy_kwarg kwargs (py "v2") ;;
  copy_kwarg kwargs (py "src") ;;
  copy_kwarg kwargs (py "scheduler").

(** The head of [from_file]: an explicit [model_dir] becomes the models path
    and is stored in [shared]. *)
Definition from_file_models_path (model_dir : pyvalue) : M world pyvalue :=
  if truthy model_dir
  then modify (set_dreambooth_models_path model_dir) ;; ret model_dir
  else default_models_path.

(** [from_file(model_name, model_dir=None)]: [Some] of the loaded
    configuration, or [None] for an empty name and from the [except]
    branch. *)
Definition from_file (model_name model_dir : pyvalue) : M world (option dict) :=
  let model_name := match model_name with
                    | VList (first :: _) => first
                    | _ => model_name
                    end in
  if py_eq_str model_name (py "") || is_none model_name then ret None
  else
    models_path <- from_file_models_path model_dir ;;
    dir <- lift_outcome (as_path models_path) ;;
    name <- lift_outcome (as_path model_name) ;;
    let config_file := path_join dir [name; py "train_config.json"] in
    try_except
      (config_dict <- read_json config_file ;;
       loaded <- on_object []
                   (TrainingConfig_init [(py "model_name", model_name)] ;;
                    load_params config_dict) ;;
       let config := snd loaded in
       modify (set_db_model_config config) ;;
       ret (Some config))
      (fun e => report_exception e ;; ret None).

End Model.

(** ** An example host

    A POSIX machine, used to run the model on concrete inputs. *)

(** [posixpath.join]: an absolute component restarts the path, otherwise
    components are joined with one ["/"]. *)
Definition ends_with_slash (s : str) : bool :=
  match rev s with
  | c :: _ => N.eqb c 47
  | [] => false
  end.

Definition posix_join (a : str) (p : list str) : str :=
  fold_left
    (fun path b =>
       if is_prefix (py "/") b then b
       else if match path with [] => true | _ => ends_with_slash path end
            then path ++ b
            else path ++ py "/" ++ b)
    p a.

(** The example host classifies and lowers the ASCII range only: digits and
    the two cases of the Latin letters. *)
Definition ascii_isalnum (c : char) : bool :=
  ((48 <=? c) && (c <=? 57) || (65 <=? c) && (c <=? 90)
   || (97 <=? c) && (c <=? 122))%N.

Definition ascii_lower (s : str) : str :=
  map (fun c => if ((65 <=? c) && (c <=? 90))%N then (c + 32)%N else c) s.

(** Modelled from the spec: the constructor of [Concept]
    (dreambooth/dataclasses/db_concept.py is not among the sources).  The
    descriptor takes its directories and prompts from the dictionary it is
    given; "concepts with an empty or missing data directory" are the ones
    that are not valid.  [Concept(None)] is the empty descriptor. *)
Definition spec_Concept (input_dict : option pyvalue) : Concept :=
  match input_dict with
  | Some (VDict d) =>
      {| instance_data_dir :=
           match dict_get (py "instance_data_dir") d with
           | Some v => v
           | None => VStr []
           end;
         class_data_dir :=
           match dict_get (py "class_data_dir") d with
           | Some v => v
           | None => VStr []
           end;
         prompts :=
           filter (fun kv => is_infix (py "prompt") (fst kv)) d;
         is_valid :=
           match dict_get (py "instance_data_dir") d with
           | Some (VStr (_ :: _)) => true
           | _ => false
           end |}
  | _ =>
      {| instance_data_dir := VStr [];
         class_data_dir := VStr [];
         prompts := [];
         is_valid := false |}
  end.

#[global] Instance posix_host : Host := {|
  char_isalnum := ascii_isalnum;
  str_lower := ascii_lower;
  str_of_other := fun _ => py "<object>";
  os_name := py "posix";
  path_join := posix_join;
  get_scheduler_names :=
    [py "DDIM"; py "DDPM"; py "PNDM"; py "DEISMultistep"; py "UniPCMultistep"];
  list_attention := [py "default"; py "xformers"];
  class_attr := fun name => existsb (str_eqb name) class_body_names;
  Concept_new := spec_Concept;
  base_load_from_file := fun _ => ret tt;
  concepts_from_file := fun _ => ret []
|}.

(** The example world: nothing on disk but the models directory, nothing
    printed yet. *)
Definition example_world : world :=
  {| fs := [(py "models/dreambooth", Dir)];
     shared := {| dreambooth_models_path := VStr (py "models/dreambooth");
                  models_path := py "models";
                  paths := [];
                  db_model_config := None |};
     log := [] |}.

(** The outcome of a run without the state it leaves. *)
Definition result_of {S A} (r : outcome A * S) : outcome A := fst r.

(** The state a run leaves. *)
Definition state_after {S A} (r : outcome A * S) : S := snd r.

(** ** Vocabulary of the properties *)

(** The keys of the migration table, as the source lists them. *)
Definition mapped_keys : list str :=
  [ py "weight_decay"; py "deis_train_scheduler"; py "optimizer";
    py "save_safetensors" ].

(** The value rules of a table entry, none when it has no ["values"]. *)
Definition rules_of (r : replacement) : list value_rule :=
  match values r with
  | Some rules => rules
  | None => []
  end.

(** The characters [sanitize_name] is meant to keep: the alphanumeric ones
    and ['.'], ['_'], ['-'], [' ']. *)
Definition kept_char {host : Host} (c : char) : bool :=
  char_isalnum c || existsb (N.eqb c) (py "._- ").

(** [subsequence t s]: [t] is [s] with some characters dropped, the others
    in their order. *)
Inductive subsequence : str -> str -> Prop :=
| subsequence_nil : subsequence [] []
| subsequence_drop c t s : subsequence t s -> subsequence t (c :: s)
| subsequence_keep c t s : subsequence t s -> subsequence (c :: t) (c :: s).

(** A valid concept as [concepts] stores it: an empty or missing class
    directory becomes [<model_dir>/classifiers_<c_idx>]. *)
Definition with_class_data_dir {host : Host} (dir : str) (c_idx : Z) (c : Concept)
  : Concept :=
  if py_eq_str (class_data_dir c) (py "") || is_none (class_data_dir c)
  then set_class_data_dir
         (VStr (path_join dir [py "classifiers_" ++ str_of_int c_idx])) c
  else c.

(** The valid concepts of a stored list, in its order, numbered from [c_idx]. *)
Fixpoint valid_concepts {host : Host} (dir : str) (c_idx : Z)
    (concepts_list : list pyvalue) : list Concept :=
  match concepts_list with
  | [] => []
  | concept_dict :: rest =>
      let concept := Concept_new (Some concept_dict) in
      if is_valid concept
      then with_class_data_dir dir c_idx concept
             :: valid_concepts dir (c_idx + 1) rest
      else valid_concepts dir c_idx rest
  end.

(** How many concepts a call returned. *)
Definition count_returned {S} (r : outcome (list Concept) * S) : option nat :=
  match fst r with
  | Return concepts => Some (List.length concepts)
  | Raise _ => None
  end.

(** An entry whose key, with ["db_"] stripped, is ["scheduler"] and whose
    value is not one of the scheduler names: the condition under which
    [load_params] sets [sched_swap]. *)
Definition wants_swap {host : Host} (entry : str * pyvalue) : bool :=
  str_eqb (strip_db (fst entry)) (py "scheduler")
  && negb (existsb (py_eq_str (snd entry)) get_scheduler_names).

(** The record [save] leaves in the log, and how many of them a world holds. *)
Definition is_save_record (e : log_entry) : bool :=
  match e with
  | Debug_saving_to _ => true
  | _ => false
  end.

Definition saves_logged (w : world) : nat :=
  List.length (filter is_save_record (log w)).

(** An entry the migration table leaves as it is. *)
Definition migration_free (key : str) (value : pyvalue) : bool :=
  match table_get key replaced_params with
  | None => true
  | Some r =>
      match new_key r with
      | Some k => str_eqb k key
      | None => true
      end
      && forallb (fun rule => negb (py_in value (old rule))) (rules_of r)
  end.

(** An entry [load_params] stores as it stands: nothing to strip from the
    key, no legacy value. *)
Definition settled {host : Host} (entry : str * pyvalue) : bool :=
  str_eqb (strip_db (fst entry)) (fst entry)
  && negb (str_eqb (fst entry) (py "attention")
           && py_eq_str (snd entry) (py "flash_attention"))
  && (negb (str_eqb (fst entry) (py "scheduler"))
      || existsb (py_eq_str (snd entry)) get_scheduler_names)
  && migration_free (fst entry) (snd entry).

(** No key twice, as in every Python [dict]. *)
Fixpoint distinct (l : list str) : bool :=
  match l with
  | [] => true
  | k :: l' => negb (existsb (str_eqb k) l') && distinct l'
  end.

(** Two objects with the same attribute names. *)
Definition same_attributes (a b : dict) : bool :=
  forallb (fun k => dict_has k b) (keys a)
  && forallb (fun k => dict_has k a) (keys b).

(** Two objects whose every attribute has the same value: equality of
    [__dict__]s, which does not look at the order of the keys. *)
Definition same_fields (a b : dict) : Prop :=
  forall k, dict_get k a = dict_get k b.

(** The world after the [except] branch of a loader has reported [e]. *)
Definition reported (e : exn) (w : world) : world :=
  with_log (log w ++ [Print_exception_loading_config e; Print_traceback e]) w.

(** What [load_params] relies on in a [TrainingConfig]: [attention] and
    [scheduler] are attributes (declared fields), the retired name
    [deis_train_scheduler] is not. *)
Definition TrainingConfig_shape {host : Host} (cfg : dict) : bool :=
  hasattr cfg (py "attention") && hasattr cfg (py "scheduler")
  && negb (hasattr cfg (py "deis_train_scheduler")).

(** An input entry that names the field [f]: its stripped key is [f] and is
    an attribute of the object. *)
Definition names_field {host : Host} (cfg : dict) (f : str) (entry : str * pyvalue)
  : bool :=
  hasattr cfg (strip_db (fst entry)) && str_eqb (strip_db (fst entry)) f.

(** A step that writes no file, leaves [shared] alone and logs no save. *)
Definition quiet (w w' : world) : Prop :=
  fs w' = fs w /\ shared w' = shared w
  /\ filter is_save_record (log w') = filter is_save_record (log w).

(** The name [swap_scheduler] settles on: the first scheduler name that
    contains the value, both in lower case. *)
Definition first_match {host : Host} (s : str) (schedulers : list str) : option str :=
  find (fun scheduler => is_infix (str_lower s) (str_lower scheduler)) schedulers.

(** The world with [prints] added to what was printed. *)
Definition logged (prints : list log_entry) (w : world) : world :=
  with_log (log w ++ prints) w.

(** A field name [load_params] takes as it is written: there is nothing to
    strip from it, and it is not the retired name of the migration table.
    Every declared field has such a name. *)
Definition plain_key (key : str) : bool :=
  str_eqb (strip_db key) key && negb (str_eqb key (py "deis_train_scheduler")).

(** What the scheduler branch of [load_params] makes of a value that is not
    one of the scheduler names, and what it prints: the first name that
    contains the string, the value itself when there is none; a value that
    is no string has no [lower()]. *)
Definition swapped {host : Host} (value : pyvalue) (schedulers : list str)
  : outcome pyvalue * list log_entry :=
  match schedulers, value with
  | [], _ => (Return value, [])
  | _ :: _, VStr s =>
      match first_match s schedulers with
      | Some scheduler =>
          (Return (VStr scheduler), [Print_updating_scheduler_name scheduler])
      | None => (Return value, [])
      end
  | _ :: _, _ => (Raise AttributeError, [])
  end.

(** The value [load_params] stores for an entry of the file under the key of
    the entry, and what it prints on the way: ["flash_attention"] becomes
    the last attention of the host, a scheduler that is not among the names
    is swapped, every other value goes through the migration table. *)
Definition remapped_value {host : Host} (entry : str * pyvalue)
  : outcome pyvalue * list log_entry :=
  let key := fst entry in
  let value := snd entry in
  if str_eqb key (py "attention") && py_eq_str value (py "flash_attention") then
    match last_item list_attention with
    | Return a => (Return (VStr a), [Print_replacing_flash_attention a])
    | Raise e => (Raise e, [])
    end
  else if str_eqb key (py "scheduler")
          && negb (existsb (py_eq_str value) get_scheduler_names) then
    swapped value get_scheduler_names
  else (Return (snd (validate_param key value)), []).

(** The entries of a file as [load_params] stores them, in the order of the
    file, with everything printed; the first exception ends the loop. *)
Fixpoint remapped {host : Host} (entries : dict) : outcome dict * list log_entry :=
  match entries with
  | [] => (Return [], [])
  | entry :: rest =>
      match remapped_value entry with
      | (Return v, prints) =>
          match remapped rest with
          | (Return stored, prints') =>
              (Return ((fst entry, v) :: stored), prints ++ prints')
          | (Raise e, prints') => (Raise e, prints ++ prints')
          end
      | (Raise e, prints) => (Raise e, prints)
      end
  end.

(** The world after [save()] wrote the object [cfg] to the directory [dir]. *)
Definition resaved {host : Host} (dir : str) (cfg : dict) (w : world) : world :=
  with_fs (fs_set (path_join dir [py "db_config.json"]) (File (Json (VDict cfg))) (fs w))
          (with_log (log w ++ [Debug_saving_to (VStr dir)]) w).

(** An object the file written to [dir] can be loaded into: it has the
    attributes of the saved one, and [BaseConfig.load_from_file] leaves it
    and the world alone. *)
Definition loadable {host : Host} (target saved : dict) (dir : str) (w : world) : Prop :=
  same_attributes target saved = true
  /\ base_load_from_file (VStr dir) {| self := target; outside := w |}
     = (Return tt, {| self := target; outside := w |}).

(** ** Example objects *)

(** [TrainingConfig(model_name="m1")] built in the example world. *)
Definition m1_state : state :=
  state_after (TrainingConfig_init [(py "model_name", VStr (py "m1"))]
                 {| self := []; outside := example_world |}).

(** The same object after [config.noise_scheduler = "DDIM"]. *)
Definition ddim_state : state :=
  state_after (setattr (py "noise_scheduler") (VStr (py "DDIM")) m1_state).

(** The same object with the model directory in Windows notation, as in a
    configuration written on Windows and loaded on the example host. *)
Definition windows_state : state :=
  state_after (setattr (py "model_dir") (VStr (py "models\dreambooth\m1")) m1_state).

(** The example object after [config.scheduler = "DDIM"], one of the
    scheduler names of the example host. *)
Definition settled_state : state :=
  state_after (setattr (py "scheduler") (VStr (py "DDIM")) m1_state).

(** The world after [config.save()] on the example object. *)
Definition saved_world : world := outside (state_after (save false m1_state)).

(** The fields that [config.save()] wrote. *)
Definition saved_fields : dict := self (state_after (save false m1_state)).

(** A world in which the configuration file of model [m1] is not valid JSON. *)
Definition broken_world : world :=
  with_fs [ (py "models/dreambooth", Dir);
            (py "models/dreambooth/m1", Dir);
            (py "models/dreambooth/m1/db_config.json", File (Malformed (py "{oops"))) ]
          example_world.

(** The example object where the directory of model [m1] is on disk. *)
Definition m1_on_disk : state := {| self := self m1_state; outside := broken_world |}.

(** Two valid concepts; the first has no class directory. *)
Definition two_concepts : pyvalue :=
  VList [ VDict [(py "instance_data_dir", VStr (py "/data/a"))];
          VDict [(py "instance_data_dir", VStr (py "/data/b"));
                 (py "class_data_dir", VStr (py "/cls/b"))] ].

Definition two_concepts_state : state :=
  {| self := dict_set (py "concepts_list") two_concepts
               (dict_set (py "model_dir") (VStr (py "models/dreambooth/m1"))
                  default_fields);
     outside := example_world |}.

(** A dictionary as the UI sends it: a prefixed key, a key that is no field,
    and a scheduler in the stored spelling. *)
Definition ui_params : dict :=
  [ (py "db_resolution", VInt 768);
    (py "db_no_such_field", VInt 1);
    (py "scheduler", VStr (py "ddim")) ].

(** ** Vocabulary of the further properties *)

(** The file a backup goes to. *)
Definition backup_file {host : Host} (dir : str) (revision : pyvalue) : str :=
  path_join dir [py "backups"; py "db_config_" ++ py_str revision ++ py ".json"].

(** What [copy_kwarg] leaves in the object. *)
Definition copied (kwargs : dict) (name : str) (cfg : dict) : dict :=
  match dict_get name kwargs with
  | Some v => dict_set name v cfg
  | None => cfg
  end.

(** [get_pretrained_model_name_or_path]: the source checkpoint when LoRA is
    trained, the working directory of the model otherwise. *)
Definition get_pretrained_model_name_or_path {host : Host} : M state pyvalue :=
  train_lora <- getattr (py "train_lora") ;;
  if truthy train_lora then getattr (py "src")
  else getattr (py "pretrained_model_name_or_path").

(** The value a keyword gives a field, or its default. *)
Definition field_value (kwargs : dict) (name : str) (default : pyvalue) : pyvalue :=
  match dict_get name kwargs with
  | Some v => v
  | None => default
  end.

(** The object [TrainingConfig(model_name=name, ...)] ends with, the models
    path being [dir]. *)
Definition constructed {host : Host} (kwargs : dict) (name dir : str) : dict :=
  let model_dir := path_join dir [sanitize_name name] in
  let working_dir := path_join model_dir [py "working"] in
  let c1 := if truthy (field_value kwargs (py "train_lora") (VBool false))
            then base_init kwargs
            else dict_set (py "lora_model_name") (VStr []) (base_init kwargs) in
  let c2 := dict_set (py "pretrained_model_name_or_path") (VStr working_dir)
              (dict_set (py "model_dir") (VStr model_dir)
                 (dict_set (py "model_name") (VStr (sanitize_name name)) c1)) in
  copied kwargs (py "scheduler")
    (copied kwargs (py "src")
       (copied kwargs (py "v2")
          (copied kwargs (py "resolution") c2))).

(** The world after the working directory was made sure of. *)
Definition with_directory (p : str) (w : world) : world :=
  match fs_get p (fs w) with
  | Some _ => w
  | None => with_fs (fs_set p Dir (fs w)) w
  end.

(** Two settled entries. *)
Definition settled_params : dict :=
  [ (py "resolution", VInt 768); (py "scheduler", VStr (py "DDIM")) ].

Local Open Scope py_scope.

(** * Proofs *)

(** ** Strings and the migration shim *)

Lemma str_eqb_refl (a : str) : str_eqb a a = true.
Proof.
  induction a as [|x a IH]; simpl; [reflexivity|].
  now rewrite N.eqb_refl, IH.
Qed.

Lemma str_eqb_eq (a b : str) : str_eqb a b = true <-> a = b.
Proof.
  split.
  - revert b. induction a as [|x a IH]; destruct b as [|y b]; simpl; try discriminate; auto.
    intros H. apply andb_true_iff in H as [Hx Ha].
    apply N.eqb_eq in Hx. subst. f_equal. now apply IH.
  - intros ->. apply str_eqb_refl.
Qed.

Lemma str_eqb_neq (a b : str) : str_eqb a b = false <-> a <> b.
Proof.
  split.
  - intros H E. apply str_eqb_eq in E. congruence.
  - intros H. destruct (str_eqb a b) eqn:E; [|reflexivity].
    apply str_eqb_eq in E. contradiction.
Qed.

Lemma str_eqb_sym (a b : str) : str_eqb a b = str_eqb b a.
Proof.
  destruct (str_eqb a b) eqn:E.
  - apply str_eqb_eq in E. subst. symmetry. apply str_eqb_refl.
  - symmetry. apply str_eqb_neq. apply str_eqb_neq in E. congruence.
Qed.

(** How [validate_param] treats each key. *)
Lemma validate_param_cases (key : str) (value : pyvalue) :
  validate_param key value =
    if str_eqb key (py "weight_decay") then (py "weight_decay", value)
    else if str_eqb key (py "deis_train_scheduler")
         then (py "noise_scheduler",
               if py_eq_bool value true then VStr (py "DDPM") else value)
    else if str_eqb key (py "optimizer")
         then (key, if py_eq_str value (py "8Bit Adam")
                    then VStr (py "8bit AdamW") else value)
    else if str_eqb key (py "save_safetensors")
         then (key, if py_eq_bool value false then VBool true else value)
    else (key, value).
Proof.
  unfold validate_param, migrate, replaced_params. cbn [table_get].
  destruct (str_eqb key (py "weight_decay")); [reflexivity|].
  destruct (str_eqb key (py "deis_train_scheduler")).
  { cbn [new_key values fold_left]. unfold apply_rule, py_in.
    cbn [existsb old new value_of py_eq]. rewrite orb_false_r. reflexivity. }
  destruct (str_eqb key (py "optimizer")).
  { cbn [new_key values fold_left]. unfold apply_rule, py_in.
    cbn [existsb old new value_of py_eq]. rewrite orb_false_r. reflexivity. }
  destruct (str_eqb key (py "save_safetensors")).
  { cbn [new_key values fold_left]. unfold apply_rule, py_in.
    cbn [existsb old new value_of py_eq]. rewrite orb_false_r. reflexivity. }
  reflexivity.
Qed.

(** C3.  The migration shim is idempotent: applying [validate_param] to the
    pair it returned yields that same pair. *)
Theorem validate_param_idempotent (key : str) (value : pyvalue) :
  validate_param (fst (validate_param key value)) (snd (validate_param key value))
  = validate_param key value.
Proof.
  rewrite (validate_param_cases key value).
  destruct (str_eqb key (py "weight_decay")) eqn:E1.
  { reflexivity. }
  destruct (str_eqb key (py "deis_train_scheduler")) eqn:E2.
  { cbn [fst snd]. rewrite validate_param_cases. reflexivity. }
  destruct (str_eqb key (py "optimizer")) eqn:E3.
  { cbn [fst snd]. rewrite validate_param_cases, E1, E2, E3.
    destruct (py_eq_str value (py "8Bit Adam")) eqn:E; [reflexivity|].
    now rewrite E. }
  destruct (str_eqb key (py "save_safetensors")) eqn:E4.
  { cbn [fst snd]. rewrite validate_param_cases, E1, E2, E3, E4.
    destruct (py_eq_bool value false) eqn:E; [reflexivity|].
    now rewrite E. }
  cbn [fst snd]. rewrite validate_param_cases, E1, E2, E3, E4. reflexivity.
Qed.

Lemma fold_apply_rule_unchanged (rules : list value_rule) (value : pyvalue) :
  (forall rule, In rule rules -> py_in value (old rule) = false) ->
  fold_left apply_rule rules value = value.
Proof.
  induction rules as [|rule rules IH]; intros H; simpl; [reflexivity|].
  unfold apply_rule at 2. rewrite (H rule (or_introl eq_refl)).
  apply IH. intros r Hr. apply H. now right.
Qed.

Lemma table_get_unmapped (key : str) :
  ~ In key mapped_keys -> table_get key replaced_params = None.
Proof.
  intros H. unfold replaced_params. cbn [table_get].
  repeat match goal with
  | |- context [str_eqb key ?k] =>
      let E := fresh "E" in
      destruct (str_eqb key k) eqn:E;
      [ apply str_eqb_eq in E; exfalso; apply H; subst key; unfold mapped_keys;
        simpl; tauto | ]
  end.
  reflexivity.
Qed.

(** C5.  The table has exactly the four keys [weight_decay],
    [deis_train_scheduler], [optimizer] and [save_safetensors]; a key outside
    it comes back with its value unchanged, and under a mapped key a value
    that is not among ([in], that is [==]) the old values of any of the key's
    rules comes back unchanged. *)
Theorem validate_param_passthrough (key : str) (value : pyvalue) :
  map fst replaced_params = mapped_keys /\
  (~ In key mapped_keys -> validate_param key value = (key, value)) /\
  (forall r, table_get key replaced_params = Some r ->
             (forall rule, In rule (rules_of r) -> py_in value (old rule) = false) ->
             snd (validate_param key value) = value).
Proof.
  split; [reflexivity|]. split.
  - intros H. unfold validate_param, migrate.
    now rewrite (table_get_unmapped key H).
  - intros r Hr Hold. unfold validate_param, migrate. rewrite Hr. cbn [snd].
    unfold rules_of in Hold. destruct (values r) as [rules|]; [|reflexivity].
    now apply fold_apply_rule_unchanged.
Qed.

Lemma validate_param_passthrough_witness :
  validate_param (py "learning_rate") (VFloat 0.5) = (py "learning_rate", VFloat 0.5)
  /\ snd (validate_param (py "optimizer") (VStr (py "Lion"))) = VStr (py "Lion").
Proof.
  split.
  - apply (proj1 (proj2 (validate_param_passthrough (py "learning_rate") (VFloat 0.5)))).
    unfold mapped_keys. simpl. intros [H|[H|[H|[H|[]]]]]; discriminate H.
  - apply (proj2 (proj2 (validate_param_passthrough (py "optimizer") (VStr (py "Lion"))))
             {| new_key := None;
                values := Some [ {| old := [LStr (py "8Bit Adam")];
                                    new := LStr (py "8bit AdamW") |} ] |}).
    + reflexivity.
    + intros rule [<-|[]]. reflexivity.
Defined.

Section Sanitize.

Context {host : Host}.

Lemma sanitize_name_cons (c : char) (s : str) :
  sanitize_name (c :: s) = if kept_char c then c :: sanitize_name s else sanitize_name s.
Proof.
  unfold sanitize_name, kept_char. cbn [map filter].
  replace (str_isalnum [c] || is_infix [c] (py "._- "))
    with (char_isalnum c || existsb (N.eqb c) (py "._- ")).
  - destruct (char_isalnum c || existsb (N.eqb c) (py "._- ")); reflexivity.
  - unfold str_isalnum. cbn [forallb]. rewrite andb_true_r. f_equal.
    change (py "._- ") with [46%N; 95%N; 45%N; 32%N].
    cbn [is_infix is_prefix existsb].
    rewrite !andb_true_r. reflexivity.
Qed.

Lemma sanitize_name_filter (s : str) : sanitize_name s = filter kept_char s.
Proof.
  induction s as [|c s IH]; [reflexivity|].
  rewrite sanitize_name_cons. cbn [filter]. now rewrite IH.
Qed.

Lemma filter_subsequence (f : char -> bool) (s : str) : subsequence (filter f s) s.
Proof.
  induction s as [|c s IH]; simpl; [constructor|].
  destruct (f c); now constructor.
Qed.

Lemma filter_idempotent (f : char -> bool) (s : str) :
  filter f (filter f s) = filter f s.
Proof.
  induction s as [|c s IH]; simpl; [reflexivity|].
  destruct (f c) eqn:E; simpl; [rewrite E, IH|]; auto.
Qed.

(** C10.  [sanitize_name s] is [s] filtered by [kept_char]: a subsequence
    of [s] that holds exactly the characters of [s] that are alphanumeric or
    one of ['.'], ['_'], ['-'], [' ']; hence [sanitize_name] is idempotent. *)
Theorem sanitize_name_keeps_allowed (s : str) :
  sanitize_name s = filter kept_char s
  /\ subsequence (sanitize_name s) s
  /\ (forall c, In c (sanitize_name s) <-> In c s /\ kept_char c = true)
  /\ sanitize_name (sanitize_name s) = sanitize_name s.
Proof.
  rewrite !sanitize_name_filter. split; [reflexivity|].
  split; [apply filter_subsequence|]. split.
  - intros c. apply filter_In.
  - apply filter_idempotent.
Qed.

End Sanitize.

(** ** Concepts *)

Section Concepts.

Context {host : Host}.

Lemma getattr_run (name : str) (cfg : dict) (w : world) (v : pyvalue) :
  dict_get name cfg = Some v ->
  getattr name {| self := cfg; outside := w |}
  = (Return v, {| self := cfg; outside := w |}).
Proof. intros H. unfold getattr. cbn [self]. now rewrite H. Qed.

Lemma concepts_loop_run (l : list pyvalue) :
  forall (acc : list Concept) (c_idx : Z) (cfg : dict) (w : world) (md : str),
    dict_get (py "model_dir") cfg = Some (VStr md) ->
    concepts_loop l acc c_idx {| self := cfg; outside := w |}
    = (Return (acc ++ valid_concepts md c_idx l), {| self := cfg; outside := w |}).
Proof.
  induction l as [|d l IH]; intros acc c_idx cfg w md Hmd.
  - cbn [concepts_loop valid_concepts]. now rewrite app_nil_r.
  - cbn [concepts_loop valid_concepts].
    destruct (is_valid (Concept_new (Some d))) eqn:Ev.
    + unfold bind at 1. unfold with_class_data_dir.
      destruct (py_eq_str (class_data_dir (Concept_new (Some d))) (py "")
                || is_none (class_data_dir (Concept_new (Some d)))) eqn:Ec.
      * unfold bind at 1. rewrite (getattr_run _ _ _ _ Hmd).
        unfold bind at 1. unfold lift_outcome at 1. cbn [as_path].
        unfold ret at 1.
        rewrite (IH _ _ _ _ _ Hmd). now rewrite <- app_assoc.
      * unfold ret at 1. rewrite (IH _ _ _ _ _ Hmd). now rewrite <- app_assoc.
    + now apply IH.
Qed.

(** C1, as amended.  For a requested count [required >= 0], [concepts]
    returns every valid concept of the stored list, in the stored order and
    with its class directory defaulted, at the head of its result: nothing
    is cut off.  What follows them is made of empty [Concept(None)] objects,
    and nothing follows when exactly [required] concepts are valid, so the
    result then has exactly [required] concepts.  The object and the world
    are left as they were. *)
Theorem concepts_keeps_every_valid_concept
    (required : Z) (cfg : dict) (w : world)
    (train_mode : pyvalue) (l : list pyvalue) (md : str) :
  (0 <= required)%Z ->
  dict_get (py "train_mode") cfg = Some train_mode ->
  (py_eq_str train_mode (py "db") = true -> dict_has (py "concepts_path") cfg = true) ->
  dict_get (py "concepts_list") cfg = Some (VList l) ->
  dict_get (py "model_dir") cfg = Some (VStr md) ->
  exists pad,
    concepts required {| self := cfg; outside := w |}
    = (Return (valid_concepts md 0 l ++ pad), {| self := cfg; outside := w |})
    /\ Forall (eq (Concept_new None)) pad
    /\ (Z.of_nat (List.length (valid_concepts md 0 l)) = required -> pad = []).
Proof.
  intros Hreq Htm Hdb Hcl Hmd.
  assert (Hneq : Z.eqb required (-1) = false) by (apply Z.eqb_neq; lia).
  assert (Hlist : (if py_eq_str train_mode (py "db")
                   then concepts_path <- getattr (py "concepts_path") ;;
                        if truthy concepts_path && Z.eqb required (-1)
                        then l <- in_world (concepts_from_file concepts_path) ;;
                             ret (VList l)
                        else getattr (py "concepts_list")
                   else getattr (py "concepts_list"))
                    {| self := cfg; outside := w |}
                  = (Return (VList l), {| self := cfg; outside := w |})).
  { destruct (py_eq_str train_mode (py "db")) eqn:E.
    - specialize (Hdb eq_refl). unfold dict_has in Hdb.
      destruct (dict_get (py "concepts_path") cfg) as [cp|] eqn:Ecp; [|discriminate].
      unfold bind. rewrite (getattr_run _ _ _ _ Ecp).
      rewrite Hneq, andb_false_r. now apply getattr_run.
    - now apply getattr_run. }
  unfold concepts. unfold bind at 1. rewrite (getattr_run _ _ _ _ Htm).
  unfold bind at 1. rewrite Hlist. rewrite Hneq.
  unfold bind at 1. unfold ret at 1.
  unfold bind at 1. unfold lift_outcome at 1. cbn [iterate].
  unfold bind at 1. rewrite (concepts_loop_run l [] 0 cfg w md Hmd). cbn [app].
  destruct (0 <? Z.of_nat (List.length (valid_concepts md 0 l)) - required)%Z eqn:E.
  - eexists. split; [reflexivity|]. split.
    + apply Forall_forall. intros c Hc. symmetry. eapply repeat_spec. exact Hc.
    + intros Heq. apply Z.ltb_lt in E. lia.
  - exists []. rewrite app_nil_r. repeat split; auto.
Qed.

End Concepts.

(** C1, counterexample.  With two valid concepts stored, [concepts(1)]
    returns three concepts and [concepts(3)] returns two. *)
Lemma concepts_count_differs_from_required :
  count_returned (concepts 1 two_concepts_state) = Some 3
  /\ count_returned (concepts 3 two_concepts_state) = Some 2.
Proof. split; vm_compute; reflexivity. Qed.

Lemma concepts_keeps_every_valid_concept_witness :
  exists pad,
    concepts 2 two_concepts_state
    = (Return (valid_concepts (py "models/dreambooth/m1") 0
                 [ VDict [(py "instance_data_dir", VStr (py "/data/a"))];
                   VDict [(py "instance_data_dir", VStr (py "/data/b"));
                          (py "class_data_dir", VStr (py "/cls/b"))] ] ++ pad),
       two_concepts_state)
    /\ Forall (eq (Concept_new None)) pad
    /\ (Z.of_nat (List.length
          (valid_concepts (py "models/dreambooth/m1") 0
             [ VDict [(py "instance_data_dir", VStr (py "/data/a"))];
               VDict [(py "instance_data_dir", VStr (py "/data/b"));
                      (py "class_data_dir", VStr (py "/cls/b"))] ])) = 2%Z
        -> pad = []).
Proof.
  apply (@concepts_keeps_every_valid_concept posix_host 2
           (self two_concepts_state) example_world (VStr (py "Default"))).
  - lia.
  - reflexivity.
  - vm_compute. discriminate.
  - reflexivity.
  - reflexivity.
Defined.

(** ** Loading parameters *)

Lemma quiet_refl (w : world) : quiet w w.
Proof. repeat split. Qed.

Lemma quiet_trans (a b c : world) : quiet a b -> quiet b c -> quiet a c.
Proof.
  intros (H1 & H2 & H3) (K1 & K2 & K3). repeat split; congruence.
Qed.

Lemma quiet_emit (e : log_entry) (w : world) :
  is_save_record e = false -> quiet w (with_log (log w ++ [e]) w).
Proof.
  intros H. repeat split. cbn [log with_log].
  rewrite filter_app. cbn [filter]. rewrite H. now rewrite app_nil_r.
Qed.

Lemma dict_get_set_same (k : str) (v : pyvalue) (d : dict) :
  dict_get k (dict_set k v d) = Some v.
Proof.
  induction d as [|[k' v'] d IH]; cbn [dict_set dict_get].
  - now rewrite str_eqb_refl.
  - destruct (str_eqb k k') eqn:E; cbn [dict_get]; rewrite E; auto.
Qed.

Lemma dict_get_set_other (k k0 : str) (v : pyvalue) (d : dict) :
  str_eqb k k0 = false -> dict_get k (dict_set k0 v d) = dict_get k d.
Proof.
  intros Hk. induction d as [|[k' v'] d IH]; cbn [dict_set dict_get].
  - now rewrite Hk.
  - destruct (str_eqb k0 k') eqn:E; cbn [dict_get].
    + apply str_eqb_eq in E. subst k'. now rewrite Hk.
    + destruct (str_eqb k k'); auto.
Qed.

Lemma dict_has_set (k k0 : str) (v : pyvalue) (d : dict) :
  dict_has k (dict_set k0 v d) = dict_has k d || str_eqb k k0.
Proof.
  unfold dict_has. destruct (str_eqb k k0) eqn:E.
  - apply str_eqb_eq in E. subst. rewrite dict_get_set_same. now rewrite orb_true_r.
  - rewrite (dict_get_set_other _ _ _ _ E). now rewrite orb_false_r.
Qed.

Section Loading.

Context {host : Host}.

Lemma hasattr_set (k0 : str) (v : pyvalue) (d : dict) :
  hasattr d k0 = true -> forall k, hasattr (dict_set k0 v d) k = hasattr d k.
Proof.
  intros H k. unfold hasattr in *. rewrite dict_has_set.
  destruct (str_eqb k k0) eqn:E.
  - apply str_eqb_eq in E. subst k. rewrite orb_true_r. cbn [orb]. now rewrite H.
  - now rewrite orb_false_r.
Qed.

Lemma swap_scheduler_effect (value : pyvalue) (schedulers : list str) :
  forall st r st',
    swap_scheduler value schedulers st = (r, st') ->
    self st' = self st /\ quiet (outside st) (outside st').
Proof.
  induction schedulers as [|scheduler rest IH]; intros st r st' H.
  - cbn [swap_scheduler] in H. unfold ret in H. inversion H; subst.
    split; [reflexivity|apply quiet_refl].
  - cbn [swap_scheduler] in H. destruct value; try (inversion H; subst; split; [reflexivity|apply quiet_refl]).
    destruct (is_infix (str_lower s) (str_lower scheduler)).
    + unfold bind, in_world, emit, modify, ret in H. cbn in H. inversion H; subst.
      cbn [self outside]. split; [reflexivity|]. now apply quiet_emit.
    + now apply IH in H.
Qed.

Lemma validate_param_key (key : str) (value : pyvalue) :
  str_eqb key (py "deis_train_scheduler") = false ->
  fst (validate_param key value) = key.
Proof.
  intros H. rewrite validate_param_cases, H.
  destruct (str_eqb key (py "weight_decay")) eqn:E.
  - apply str_eqb_eq in E. now subst.
  - destruct (str_eqb key (py "optimizer")); [reflexivity|].
    destruct (str_eqb key (py "save_safetensors")); reflexivity.
Qed.

(** What one turn of the loop can do. *)
Lemma load_param_effect (b : bool) (e : str * pyvalue) (st : state)
    (r : outcome bool) (st' : state) :
  load_param b e st = (r, st') ->
  quiet (outside st) (outside st')
  /\ (self st' = self st
      \/ (hasattr (self st) (strip_db (fst e)) = true
          /\ exists v, self st'
                       = dict_set (fst (validate_param (strip_db (fst e)) v))
                                  (snd (validate_param (strip_db (fst e)) v))
                                  (self st)))
  /\ (forall b', r = Return b' -> b' = b || wants_swap e).
Proof.
  destruct e as [key0 value]. destruct st as [cfg w].
  unfold load_param, wants_swap. cbn [fst snd].
  set (key := strip_db key0).
  destruct (str_eqb key (py "attention")) eqn:Ea.
  - assert (Es : str_eqb key (py "scheduler") = false).
    { apply str_eqb_eq in Ea. rewrite Ea. reflexivity. }
    rewrite Es. cbn [andb].
    destruct (py_eq_str value (py "flash_attention")).
    + unfold bind at 1. unfold bind at 1. unfold lift_outcome at 1.
      destruct (last_item list_attention) as [a|x].
      * unfold bind, in_world, emit, modify, ret, gets, setattr. cbn.
        destruct (hasattr cfg key) eqn:Eh; cbn; intros H; inversion H; subst; cbn [self outside].
        -- split; [now apply quiet_emit|]. split.
           ++ right. split; [first [exact Eh | reflexivity]|]. now exists (VStr a).
           ++ intros b' Hb. inversion Hb. now rewrite orb_false_r.
        -- split; [now apply quiet_emit|]. split; [now left|].
           intros b' Hb. inversion Hb. now rewrite orb_false_r.
      * intros H. inversion H; subst. split; [apply quiet_refl|]. split; [now left|].
        intros b' Hb. discriminate Hb.
    + unfold bind, ret, gets, setattr, modify. cbn.
      destruct (hasattr cfg key) eqn:Eh; cbn; intros H; inversion H; subst; cbn [self outside].
      * split; [apply quiet_refl|]. split.
        -- right. split; [first [exact Eh | reflexivity]|]. now exists value.
        -- intros b' Hb. inversion Hb. now rewrite orb_false_r.
      * split; [apply quiet_refl|]. split; [now left|].
        intros b' Hb. inversion Hb. now rewrite orb_false_r.
  - cbn [andb]. unfold bind at 1. unfold ret at 1.
    destruct (str_eqb key (py "scheduler")) eqn:Es.
    + cbn [andb].
      destruct (existsb (py_eq_str value) get_scheduler_names) eqn:Ein; cbn [negb].
      * unfold bind, ret, gets, setattr, modify. cbn.
        destruct (hasattr cfg key) eqn:Eh; cbn; intros H; inversion H; subst; cbn [self outside].
        -- split; [apply quiet_refl|]. split.
           ++ right. split; [first [exact Eh | reflexivity]|]. now exists value.
           ++ intros b' Hb. inversion Hb. now rewrite orb_false_r.
        -- split; [apply quiet_refl|]. split; [now left|].
           intros b' Hb. inversion Hb. now rewrite orb_false_r.
      * unfold bind at 1. unfold bind at 1.
        destruct (swap_scheduler value get_scheduler_names {| self := cfg; outside := w |})
          as [[v'|x] [cfg1 w1]] eqn:Esw;
          apply swap_scheduler_effect in Esw; cbn [self outside] in Esw;
          destruct Esw as [Hself Hq]; subst cfg1.
        -- unfold bind, ret, gets, setattr, modify. cbn.
           destruct (hasattr cfg key) eqn:Eh; cbn; intros H; inversion H; subst; cbn [self outside].
           ++ split; [exact Hq|]. split.
              ** right. split; [first [exact Eh | reflexivity]|]. now exists v'.
              ** intros b' Hb. inversion Hb. now rewrite orb_true_r.
           ++ split; [exact Hq|]. split; [now left|].
              intros b' Hb. inversion Hb. now rewrite orb_true_r.
        -- intros H. inversion H; subst. cbn [self outside].
           split; [exact Hq|]. split; [now left|]. intros b' Hb. discriminate Hb.
    + cbn [andb]. unfold bind, ret, gets, setattr, modify. cbn.
      destruct (hasattr cfg key) eqn:Eh; cbn; intros H; inversion H; subst; cbn [self outside].
      * split; [apply quiet_refl|]. split.
        -- right. split; [first [exact Eh | reflexivity]|]. now exists value.
        -- intros b' Hb. inversion Hb. now rewrite orb_false_r.
      * split; [apply quiet_refl|]. split; [now left|].
        intros b' Hb. inversion Hb. now rewrite orb_false_r.
Qed.

Lemma load_params_loop_effect (entries : dict) :
  forall b st r st',
    load_params_loop b entries st = (r, st') ->
    quiet (outside st) (outside st')
    /\ (forall b', r = Return b' -> b' = b || existsb wants_swap entries).
Proof.
  induction entries as [|e entries IH]; intros b st r st' H.
  - cbn [load_params_loop] in H. unfold ret in H. inversion H; subst.
    split; [apply quiet_refl|]. intros b' Hb. inversion Hb. now rewrite orb_false_r.
  - cbn [load_params_loop] in H. unfold bind in H.
    destruct (load_param b e st) as [[b1|x] st1] eqn:E1;
      apply load_param_effect in E1; destruct E1 as (Hq & _ & Hb1).
    + apply IH in H. destruct H as (Hq' & Hb').
      split; [eapply quiet_trans; eauto|].
      intros b' Hr. rewrite (Hb' b' Hr), (Hb1 b1 eq_refl). cbn [existsb].
      now rewrite orb_assoc.
    + inversion H; subst. split; [exact Hq|]. intros b' Hb. discriminate Hb.
Qed.

Lemma hasattr_rules_out_retired (cfg : dict) (key : str) :
  hasattr cfg (py "deis_train_scheduler") = false ->
  hasattr cfg key = true ->
  str_eqb key (py "deis_train_scheduler") = false.
Proof.
  intros Hd Hk. destruct (str_eqb key (py "deis_train_scheduler")) eqn:E; [|reflexivity].
  apply str_eqb_eq in E. subst key. congruence.
Qed.

Lemma load_params_loop_frame (cfg0 : dict) (entries : dict) :
  hasattr cfg0 (py "deis_train_scheduler") = false ->
  forall b st r st',
    (forall k, hasattr (self st) k = hasattr cfg0 k) ->
    load_params_loop b entries st = (r, st') ->
    (forall k, hasattr (self st') k = hasattr cfg0 k)
    /\ (forall f, existsb (names_field cfg0 f) entries = false ->
                  dict_get f (self st') = dict_get f (self st)).
Proof.
  intros Hd. induction entries as [|e entries IH]; intros b st r st' Hattrs H.
  - cbn [load_params_loop] in H. unfold ret in H. inversion H; subst. auto.
  - cbn [load_params_loop] in H. unfold bind in H.
    destruct (load_param b e st) as [r1 st1] eqn:E1.
    apply load_param_effect in E1. destruct E1 as (_ & Hself & _).
    assert (Hstep : (forall k, hasattr (self st1) k = hasattr cfg0 k)
                    /\ (forall f, names_field cfg0 f e = false ->
                                  dict_get f (self st1) = dict_get f (self st))).
    { destruct Hself as [Hself | (Hk & v & Hself)].
      - rewrite Hself. auto.
      - pose proof (Hk) as Hk0. rewrite Hattrs in Hk0.
        pose proof (hasattr_rules_out_retired _ _ Hd Hk0) as Hnd.
        rewrite (validate_param_key _ v Hnd) in Hself. rewrite Hself. split.
        + intros k. rewrite (hasattr_set _ _ _ Hk). apply Hattrs.
        + intros f Hf. unfold names_field in Hf. rewrite Hk0 in Hf. cbn [andb] in Hf.
          apply dict_get_set_other. now rewrite str_eqb_sym. }
    destruct Hstep as (Hattrs1 & Hframe1).
    destruct r1 as [b1|x].
    + apply (IH _ _ _ _ Hattrs1) in H. destruct H as (Hattrs' & Hframe').
      split; [exact Hattrs'|]. intros f Hf. cbn [existsb] in Hf.
      apply orb_false_iff in Hf as [Hf1 Hf2].
      rewrite (Hframe' f Hf2). now apply Hframe1.
    + inversion H; subst. split; [exact Hattrs1|].
      intros f Hf. cbn [existsb] in Hf. apply orb_false_iff in Hf as [Hf1 _].
      now apply Hframe1.
Qed.

Lemma fs_get_set_same (p : str) (n : node) (f : filesystem) :
  fs_get p (fs_set p n f) = Some n.
Proof.
  induction f as [|[p' n'] f IH]; cbn [fs_set fs_get].
  - now rewrite str_eqb_refl.
  - destruct (str_eqb p p') eqn:E; cbn [fs_get]; rewrite E; auto.
Qed.

(** What [save] can do to the object. *)
Lemma save_effect (backup : bool) (st : state) (r : outcome unit) (st' : state) :
  save backup st = (r, st') ->
  self st' = self st
  \/ exists v v', dict_get (py "model_dir") (self st) = Some v
                  /\ normalise_separators v = Return v'
                  /\ self st' = dict_set (py "model_dir") v' (self st).
Proof.
  destruct st as [cfg w]. unfold save. unfold bind at 1. unfold getattr at 1. cbn [self].
  destruct (dict_get (py "model_dir") cfg) as [v|] eqn:Ev.
  2:{ intros H. inversion H; subst. now left. }
  unfold bind at 1. unfold in_world at 1, emit at 1, modify at 1. cbn [outside self].
  unfold bind at 1. unfold lift_outcome at 1.
  destruct (normalise_separators v) as [v'|x] eqn:En.
  2:{ intros H. inversion H; subst. now left. }
  unfold bind at 1. unfold setattr at 1, modify at 1. cbn [with_self self outside].
  intros H. right. exists v, v'. split; [reflexivity|]. split; [exact En|].
  unfold with_self in H. cbn [self outside] in H.
  unfold bind at 1 in H. unfold lift_outcome at 1 in H.
  destruct (as_path v') as [dir|x].
  2:{ inversion H; reflexivity. }
  unfold bind at 1 in H.
  match type of H with
  | match ?c ?s with _ => _ end = _ =>
      assert (Hc : forall r0 s0, c s = (r0, s0) -> self s0 = self s)
  end.
  { destruct backup.
    - intros r0 s0. unfold bind at 1. unfold in_world at 1, path_exists at 1, gets at 1.
      cbn [outside self]. unfold bind at 1.
      destruct (fs_get (path_join dir [py "backups"]) (fs (with_log (log w ++ [Debug_saving_to v]) w))).
      + unfold ret at 1. unfold bind, getattr, ret. cbn [self].
        destruct (dict_get (py "revision") (dict_set (py "model_dir") v' cfg));
          intros K; inversion K; reflexivity.
      + unfold in_world at 1, makedirs at 1. cbn [outside self].
        destruct (fs_get (path_join dir [py "backups"]) (fs (with_log (log w ++ [Debug_saving_to v]) w)));
          [intros K; inversion K; reflexivity|].
        unfold bind, getattr, ret. cbn [self].
        destruct (dict_get (py "revision") (dict_set (py "model_dir") v' cfg));
          intros K; inversion K; reflexivity.
    - intros r0 s0 K. unfold ret in K. inversion K. reflexivity. }
  match type of H with
  | match ?c ?s with _ => _ end = _ => destruct (c s) as [[cf|x] s1] eqn:Ec
  end; specialize (Hc _ _ eq_refl); cbn [self] in Hc.
  - unfold bind, gets, in_world, write_json in H. cbn [outside self] in H.
    destruct (fs_get cf (fs (outside s1))) as [[|f]|]; inversion H; subst; cbn [self]; exact Hc.
  - inversion H; subst. exact Hc.
Qed.

(** A completed [save()] in full. *)
Lemma save_false_done (st st' : state) :
  save false st = (Return tt, st') ->
  exists v dir,
    dict_get (py "model_dir") (self st) = Some v
    /\ normalise_separators v = Return (VStr dir)
    /\ self st' = dict_set (py "model_dir") (VStr dir) (self st)
    /\ outside st'
       = with_fs (fs_set (path_join dir [py "db_config.json"])
                         (File (Json (VDict (self st'))))
                         (fs (outside st)))
                 (with_log (log (outside st) ++ [Debug_saving_to v]) (outside st)).
Proof.
  destruct st as [cfg w]. unfold save. unfold bind at 1. unfold getattr at 1. cbn [self].
  destruct (dict_get (py "model_dir") cfg) as [v|] eqn:Ev; [|discriminate].
  unfold bind at 1. unfold in_world at 1, emit at 1, modify at 1. cbn [outside self].
  unfold bind at 1. unfold lift_outcome at 1.
  destruct (normalise_separators v) as [v'|x] eqn:En; [|discriminate].
  unfold bind at 1. unfold setattr at 1, modify at 1. unfold with_self. cbn [self outside].
  unfold bind at 1. unfold lift_outcome at 1.
  destruct v' as [| | | |dir| |]; cbn [as_path]; try discriminate.
  unfold bind at 1. unfold ret at 1.
  unfold bind, gets, in_world, write_json. cbn [self outside fs with_log].
  destruct (fs_get (path_join dir [py "db_config.json"]) (fs w)) as [[|f]|];
    try discriminate; intros H; inversion H; subst; cbn [self outside];
    exists v, dir; (split; [reflexivity|]); (split; [exact En|]); split; reflexivity.
Qed.

End Loading.

Section LoadParams.

Context {host : Host}.

Lemma quiet_saves_logged (w w' : world) :
  quiet w w' -> saves_logged w' = saves_logged w.
Proof. intros (_ & _ & H). unfold saves_logged. now rewrite H. Qed.

(** C6, as amended.  [load_params] re-saves exactly on a scheduler swap:
    when no entry has the key ["scheduler"] (after stripping ["db_"]) with a
    value outside [get_scheduler_names()], nothing is saved and no file is
    touched, whatever else was remapped; when there is such an entry and
    [load_params] returns, [save()] has run once more and
    [<model_dir>/db_config.json] holds the object as it now is. *)
Theorem load_params_saves_on_scheduler_swap
    (d : dict) (st : state) (r : outcome unit) (st' : state) :
  load_params (VDict d) st = (r, st') ->
  (existsb wants_swap d = false ->
     saves_logged (outside st') = saves_logged (outside st)
     /\ fs (outside st') = fs (outside st))
  /\ (existsb wants_swap d = true -> r = Return tt ->
      saves_logged (outside st') = S (saves_logged (outside st))
      /\ exists dir,
           dict_get (py "model_dir") (self st') = Some (VStr dir)
           /\ fs_get (path_join dir [py "db_config.json"]) (fs (outside st'))
              = Some (File (Json (VDict (self st'))))).
Proof.
  unfold load_params. unfold bind at 1. unfold lift_outcome at 1. cbn [items].
  unfold bind at 1.
  destruct (load_params_loop false d st) as [[b|x] st1] eqn:El;
    apply load_params_loop_effect in El; destruct El as (Hq & Hb).
  - specialize (Hb b eq_refl). cbn [orb] in Hb. subst b.
    destruct (existsb wants_swap d) eqn:Ew.
    + intros H. split; [discriminate|]. intros _ Hr. subst r.
      apply save_false_done in H. destruct H as (v & dir & Hv & Hn & Hself & Hout).
      split.
      * rewrite Hout. unfold saves_logged. cbn [log with_fs with_log].
        rewrite filter_app, length_app. cbn [filter is_save_record List.length].
        destruct Hq as (_ & _ & Hq). rewrite Hq. lia.
      * exists dir. split.
        -- rewrite Hself. apply dict_get_set_same.
        -- rewrite Hout. cbn [fs with_fs]. apply fs_get_set_same.
    + unfold ret. intros H. inversion H; subst. split; [|discriminate].
      intros _. split; [now apply quiet_saves_logged|apply Hq].
  - intros H. inversion H; subst. split.
    + intros _. split; [now apply quiet_saves_logged|apply Hq].
    + intros _ Hr. discriminate Hr.
Qed.

Lemma TrainingConfig_shape_retired (cfg : dict) :
  TrainingConfig_shape cfg = true ->
  hasattr cfg (py "attention") = true /\ hasattr cfg (py "scheduler") = true
  /\ hasattr cfg (py "deis_train_scheduler") = false.
Proof.
  unfold TrainingConfig_shape. intros H.
  apply andb_true_iff in H as [H H3]. apply andb_true_iff in H as [H1 H2].
  apply negb_true_iff in H3. auto.
Qed.

(** An entry whose key is no attribute leaves no trace at all. *)
Lemma load_param_ignored (b : bool) (e : str * pyvalue) (st : state) :
  TrainingConfig_shape (self st) = true ->
  hasattr (self st) (strip_db (fst e)) = false ->
  load_param b e st = (Return b, st).
Proof.
  intros Hshape Hk. apply TrainingConfig_shape_retired in Hshape.
  destruct Hshape as (Ha & Hs & _).
  unfold load_param.
  assert (Ea : str_eqb (strip_db (fst e)) (py "attention") = false).
  { destruct (str_eqb (strip_db (fst e)) (py "attention")) eqn:E; [|reflexivity].
    apply str_eqb_eq in E. rewrite E in Hk. congruence. }
  assert (Es : str_eqb (strip_db (fst e)) (py "scheduler") = false).
  { destruct (str_eqb (strip_db (fst e)) (py "scheduler")) eqn:E; [|reflexivity].
    apply str_eqb_eq in E. rewrite E in Hk. congruence. }
  rewrite Ea, Es. cbn [andb]. unfold bind, ret, gets. cbn [fst snd]. now rewrite Hk.
Qed.

(** C9, as amended.  On a [TrainingConfig], [load_params] leaves the set of
    attributes as it was (it only assigns attributes that exist); an entry
    whose stripped key is no attribute changes nothing at all; every field
    that no accepted key names keeps its value, except [model_dir], which
    the re-save after a scheduler swap may rewrite with the path separators
    of the host (it keeps its value when no swap happens).  This holds
    whether [load_params] returns or raises. *)
Theorem load_params_frame
    (cfg : dict) (w : world) (d : dict) (r : outcome unit) (st' : state) :
  TrainingConfig_shape cfg = true ->
  load_params (VDict d) {| self := cfg; outside := w |} = (r, st') ->
  (forall k, hasattr (self st') k = hasattr cfg k)
  /\ (forall b e st, TrainingConfig_shape (self st) = true ->
                     hasattr (self st) (strip_db (fst e)) = false ->
                     load_param b e st = (Return b, st))
  /\ (forall f, existsb (names_field cfg f) d = false ->
                str_eqb f (py "model_dir") = false ->
                dict_get f (self st') = dict_get f cfg)
  /\ (existsb (names_field cfg (py "model_dir")) d = false ->
      (existsb wants_swap d = false ->
       dict_get (py "model_dir") (self st') = dict_get (py "model_dir") cfg)
      /\ (dict_get (py "model_dir") (self st') = dict_get (py "model_dir") cfg
          \/ exists v v',
               dict_get (py "model_dir") cfg = Some v
               /\ normalise_separators v = Return v'
               /\ dict_get (py "model_dir") (self st') = Some v')).
Proof.
  intros Hshape H.
  pose proof (TrainingConfig_shape_retired _ Hshape) as (_ & _ & Hd).
  split; [|split; [exact load_param_ignored|]].
  - revert H. unfold load_params. unfold bind at 1. unfold lift_outcome at 1. cbn [items].
    unfold bind at 1.
    destruct (load_params_loop false d {| self := cfg; outside := w |}) as [[b|x] st1] eqn:El;
      apply (load_params_loop_frame cfg d Hd) in El; try (intros k; reflexivity);
      destruct El as (Hattrs & _).
    + destruct b.
      * intros H. apply save_effect in H.
        destruct H as [H | (v & v' & Hv & _ & H)]; rewrite H; [exact Hattrs|].
        intros k. rewrite hasattr_set; [apply Hattrs|].
        unfold hasattr, dict_has. now rewrite Hv.
      * unfold ret. intros H. inversion H; subst. exact Hattrs.
    + intros H. inversion H; subst. exact Hattrs.
  - revert H. unfold load_params. unfold bind at 1. unfold lift_outcome at 1. cbn [items].
    unfold bind at 1.
    destruct (load_params_loop false d {| self := cfg; outside := w |}) as [[b|x] st1] eqn:El;
      pose proof (load_params_loop_effect _ _ _ _ _ El) as (_ & Hb);
      apply (load_params_loop_frame cfg d Hd) in El; try (intros k; reflexivity);
      destruct El as (_ & Hframe); cbn [self] in Hframe.
    + specialize (Hb b eq_refl). cbn [orb] in Hb. subst b.
      destruct (existsb wants_swap d) eqn:Ew.
      * intros H. apply save_effect in H. split.
        -- intros f Hf Hmd.
           destruct H as [H | (v & v' & Hv & _ & H)]; rewrite H; [now apply Hframe|].
           rewrite (dict_get_set_other _ _ _ _ Hmd). now apply Hframe.
        -- intros Hf. split; [discriminate|].
           destruct H as [H | (v & v' & Hv & Hn & H)]; rewrite H.
           ++ left. now apply Hframe.
           ++ right. exists v, v'. rewrite <- (Hframe _ Hf).
              split; [exact Hv|]. split; [exact Hn|]. apply dict_get_set_same.
      * unfold ret. intros H. inversion H; subst. split.
        -- intros f Hf _. now apply Hframe.
        -- intros Hf. split; [intros _|left]; now apply Hframe.
    + intros H. inversion H; subst. split.
      * intros f Hf _. now apply Hframe.
      * intros Hf. split; [intros _|left]; now apply Hframe.
Qed.

End LoadParams.

(** ** The loaders *)

Section Loaders.

Context {host : Host}.

Lemma read_json_world (p : str) (w : world) : state_after (read_json p w) = w.
Proof.
  unfold read_json, state_after. destruct (fs_get p (fs w)) as [[|[doc|text]]|]; reflexivity.
Qed.

Lemma read_json_raises (p : str) (w : world) (e : exn) :
  result_of (read_json p w) = Raise e -> read_json p w = (Raise e, w).
Proof.
  intros H. rewrite (surjective_pairing (read_json p w)).
  unfold result_of in H. rewrite H. f_equal. apply read_json_world.
Qed.

Lemma bind_raises {S A B} (m : M S A) (k : A -> M S B) (s s' : S) (e : exn) :
  m s = (Raise e, s') -> bind m k s = (Raise e, s').
Proof. intros H. unfold bind. now rewrite H. Qed.

Lemma bind_returns {S A B} (m : M S A) (k : A -> M S B) (s s' : S) (a : A) :
  m s = (Return a, s') -> bind m k s = k a s'.
Proof. intros H. unfold bind. now rewrite H. Qed.

Lemma try_except_raises {S A} (body : M S A) (handler : exn -> M S A)
    (s s' : S) (e : exn) :
  body s = (Raise e, s') -> try_except body handler s = handler e s'.
Proof. intros H. unfold try_except. now rewrite H. Qed.

Lemma in_world_run {A} (m : M world A) (cfg : dict) (w w' : world) (o : outcome A) :
  m w = (o, w') ->
  in_world m {| self := cfg; outside := w |} = (o, {| self := cfg; outside := w' |}).
Proof. intros H. unfold in_world. cbn [outside self]. now rewrite H. Qed.

Lemma report_exception_run (e : exn) (w : world) :
  report_exception e w = (Return tt, reported e w).
Proof.
  unfold report_exception, bind, emit, modify, reported, with_log. cbn.
  now rewrite <- app_assoc.
Qed.

(** C7.  When opening or parsing the configuration file raises [e], each
    of [from_file], [load_from_file] and [refresh] catches it, prints the
    exception and the traceback, and returns [None]; the object is not
    touched. *)
Theorem loaders_report_load_errors (e : exn) :
  (forall name model_dir dir w w1,
      name <> [] ->
      from_file_models_path model_dir w = (Return (VStr dir), w1) ->
      result_of (read_json (path_join dir [name; py "train_config.json"]) w1) = Raise e ->
      from_file (VStr name) model_dir w = (Return None, reported e w1))
  /\ (forall dir cfg w,
      result_of (read_json (path_join dir [py "db_config.json"]) w) = Raise e ->
      load_from_file (VStr dir) {| self := cfg; outside := w |}
      = (Return None, {| self := cfg; outside := reported e w |}))
  /\ (forall dir name cfg w,
      default_models_path w = (Return (VStr dir), w) ->
      dict_get (py "model_name") cfg = Some (VStr name) ->
      result_of (read_json (path_join dir [name; py "db_config.json"]) w) = Raise e ->
      refresh {| self := cfg; outside := w |}
      = (Return None, {| self := cfg; outside := reported e w |})).
Proof.
  split; [|split].
  - intros name model_dir dir w w1 Hname Hpath Hread.
    apply read_json_raises in Hread.
    unfold from_file.
    assert (E : py_eq_str (VStr name) (py "") || is_none (VStr name) = false).
    { cbn [py_eq_str is_none]. rewrite orb_false_r. apply str_eqb_neq. exact Hname. }
    rewrite E. rewrite (bind_returns _ _ _ _ _ Hpath).
    unfold lift_outcome at 1. cbn [as_path]. unfold bind at 1.
    unfold lift_outcome at 1. unfold bind at 1.
    erewrite try_except_raises; [|apply bind_raises; exact Hread].
    unfold bind. rewrite report_exception_run. reflexivity.
  - intros dir cfg w Hread. apply read_json_raises in Hread.
    unfold load_from_file. unfold lift_outcome at 1. cbn [as_path]. unfold bind at 1.
    erewrite try_except_raises;
      [|apply bind_raises; apply in_world_run; exact Hread].
    unfold bind. erewrite in_world_run; [|apply report_exception_run]. reflexivity.
  - intros dir name cfg w Hpath Hname Hread. apply read_json_raises in Hread.
    unfold refresh.
    erewrite bind_returns; [|apply in_world_run; exact Hpath].
    erewrite bind_returns; [|apply getattr_run; exact Hname].
    unfold lift_outcome at 1. cbn [as_path]. unfold bind at 1.
    unfold lift_outcome at 1. unfold bind at 1.
    erewrite try_except_raises;
      [|apply bind_raises; apply in_world_run; exact Hread].
    unfold bind. erewrite in_world_run; [|apply report_exception_run]. reflexivity.
Qed.

End Loaders.

Lemma loaders_report_load_errors_witness :
  from_file (VStr (py "m1")) VNone example_world
    = (Return None, reported FileNotFoundError example_world)
  /\ load_from_file (VStr (py "models/dreambooth/m1"))
       {| self := default_fields; outside := broken_world |}
     = (Return None, {| self := default_fields; outside := reported JSONDecodeError broken_world |})
  /\ refresh {| self := dict_set (py "model_name") (VStr (py "m1")) default_fields;
                outside := broken_world |}
     = (Return None, {| self := dict_set (py "model_name") (VStr (py "m1")) default_fields;
                        outside := reported JSONDecodeError broken_world |}).
Proof.
  split; [|split].
  - apply (proj1 (@loaders_report_load_errors posix_host FileNotFoundError)
             (py "m1") VNone (py "models/dreambooth")).
    + discriminate.
    + reflexivity.
    + reflexivity.
  - apply (proj1 (proj2 (@loaders_report_load_errors posix_host JSONDecodeError))).
    reflexivity.
  - apply (proj2 (proj2 (@loaders_report_load_errors posix_host JSONDecodeError))
             (py "models/dreambooth") (py "m1")).
    + reflexivity.
    + reflexivity.
    + reflexivity.
Defined.

(** ** Save and load *)

Lemma migration_free_validate (key : str) (value : pyvalue) :
  migration_free key value = true -> validate_param key value = (key, value).
Proof.
  unfold migration_free, validate_param, migrate.
  destruct (table_get key replaced_params) as [r|]; [|reflexivity].
  intros H. apply andb_true_iff in H as [Hk Hr]. f_equal.
  - destruct (new_key r) as [k|]; [|reflexivity]. now apply str_eqb_eq in Hk.
  - unfold rules_of in Hr. destruct (values r) as [rules|]; [|reflexivity].
    apply fold_apply_rule_unchanged. intros rule Hin.
    rewrite forallb_forall in Hr. specialize (Hr rule Hin).
    now apply negb_true_iff in Hr.
Qed.

Lemma dict_get_absent (k : str) (d : dict) :
  existsb (str_eqb k) (keys d) = false -> dict_get k d = None.
Proof.
  induction d as [|[k' v] d IH]; cbn [keys map existsb dict_get fst]; [reflexivity|].
  intros H. apply orb_false_iff in H as [H1 H2]. rewrite H1. now apply IH.
Qed.

Lemma dict_has_keys (k : str) (d : dict) :
  dict_has k d = existsb (str_eqb k) (keys d).
Proof.
  unfold dict_has. induction d as [|[k' v] d IH]; cbn [keys map existsb dict_get fst];
    [reflexivity|].
  destruct (str_eqb k k'); [reflexivity|exact IH].
Qed.

Lemma keys_dict_set (k : str) (v : pyvalue) (d : dict) :
  dict_has k d = true -> keys (dict_set k v d) = keys d.
Proof.
  unfold dict_has. induction d as [|[k' v'] d IH]; cbn [dict_get dict_set]; [discriminate|].
  destruct (str_eqb k k') eqn:E; cbn [keys map fst]; [reflexivity|].
  intros H. f_equal. now apply IH.
Qed.

(** Storing a dictionary entry by entry: with distinct keys, every key of
    the dictionary ends with its value, every other key keeps its own. *)
Lemma fold_dict_set_get (entries : dict) :
  distinct (keys entries) = true ->
  forall (d : dict) (k : str),
    dict_get k (fold_left (fun d e => dict_set (fst e) (snd e) d) entries d)
    = match dict_get k entries with
      | Some v => Some v
      | None => dict_get k d
      end.
Proof.
  induction entries as [|[k0 v0] entries IH]; intros Hd d k; [reflexivity|].
  cbn [keys map fst distinct] in Hd. apply andb_true_iff in Hd as [Hk0 Hd].
  apply negb_true_iff in Hk0.
  cbn [fold_left fst snd dict_get]. rewrite (IH Hd).
  destruct (str_eqb k k0) eqn:E.
  - apply str_eqb_eq in E. subst k0.
    rewrite (dict_get_absent _ _ Hk0). apply dict_get_set_same.
  - destruct (dict_get k entries); [reflexivity|].
    now apply dict_get_set_other.
Qed.

Lemma is_infix_char (a : char) (s : str) : is_infix [a] s = existsb (N.eqb a) s.
Proof.
  induction s as [|c s IH]; [reflexivity|].
  cbn [is_infix is_prefix existsb]. rewrite IH.
  destruct s; now rewrite andb_true_r.
Qed.

Lemma replace_char (a b : char) (s : str) :
  replace [a] [b] s = map (fun c => if N.eqb a c then b else c) s.
Proof.
  unfold replace. induction s as [|c s IH]; [reflexivity|].
  cbn [replace_from is_prefix map List.length Nat.sub app].
  destruct s as [|c' s'].
  - destruct (N.eqb a c); reflexivity.
  - rewrite andb_true_r. destruct (N.eqb a c); cbn [app]; now rewrite IH.
Qed.

Lemma replace_char_gone (a b : char) (s : str) :
  N.eqb a b = false -> is_infix [a] (replace [a] [b] s) = false.
Proof.
  intros Hab. rewrite replace_char, is_infix_char.
  induction s as [|c s IH]; [reflexivity|].
  cbn [map existsb]. rewrite IH, orb_false_r.
  destruct (N.eqb a c) eqn:E; [exact Hab|exact E].
Qed.

Lemma dict_set_same (k : str) (v : pyvalue) (d : dict) :
  dict_get k d = Some v -> dict_set k v d = d.
Proof.
  induction d as [|[k' v'] d IH]; cbn [dict_get dict_set]; [discriminate|].
  destruct (str_eqb k k') eqn:E.
  - intros H. inversion H. reflexivity.
  - intros H. f_equal. now apply IH.
Qed.

Lemma logged_nil (w : world) : logged [] w = w.
Proof. destruct w. unfold logged, with_log. cbn. now rewrite app_nil_r. Qed.

Lemma logged_app (p q : list log_entry) (w : world) :
  logged q (logged p w) = logged (p ++ q) w.
Proof. unfold logged, with_log. cbn. now rewrite app_assoc. Qed.

(** The declared field names are plain. *)
Lemma declared_fields_plain : forallb plain_key (keys default_fields) = true.
Proof. vm_compute. reflexivity. Qed.

Section RoundTrip.

Context {host : Host}.

Lemma load_param_settled (b : bool) (e : str * pyvalue) (st : state) :
  settled e = true ->
  hasattr (self st) (fst e) = true ->
  load_param b e st
  = (Return b, with_self (dict_set (fst e) (snd e) (self st)) st).
Proof.
  intros Hs Hk. unfold settled in Hs.
  apply andb_true_iff in Hs as [Hs Hm]. apply andb_true_iff in Hs as [Hs Hsch].
  apply andb_true_iff in Hs as [Hstrip Hatt].
  apply str_eqb_eq in Hstrip. apply negb_true_iff in Hatt.
  apply migration_free_validate in Hm.
  unfold load_param. rewrite Hstrip, Hatt.
  unfold bind at 1. unfold ret at 1.
  destruct (str_eqb (fst e) (py "scheduler")) eqn:Es.
  - cbn [negb orb] in Hsch. rewrite Hsch. cbn [negb].
    unfold bind, ret, gets, setattr, modify. cbn [fst snd]. rewrite Hk, Hm. reflexivity.
  - unfold bind, ret, gets, setattr, modify. cbn [fst snd]. rewrite Hk, Hm. reflexivity.
Qed.

Lemma load_params_loop_settled (entries : dict) :
  forall b st,
    forallb settled entries = true ->
    (forall k, In k (keys entries) -> hasattr (self st) k = true) ->
    load_params_loop b entries st
    = (Return b,
       with_self (fold_left (fun d e => dict_set (fst e) (snd e) d) entries (self st)) st).
Proof.
  induction entries as [|e entries IH]; intros b st Hs Hk.
  - destruct st. reflexivity.
  - cbn [forallb] in Hs. apply andb_true_iff in Hs as [He Hs].
    cbn [load_params_loop]. unfold bind.
    rewrite (load_param_settled b e st He (Hk _ (or_introl eq_refl))).
    rewrite IH; [destruct st; reflexivity|exact Hs|].
    intros k Hin. cbn [self with_self].
    rewrite hasattr_set; [|apply Hk; now left]. apply Hk. now right.
Qed.

Lemma same_attributes_left (a b : dict) (k : str) :
  same_attributes a b = true -> dict_has k a = true -> dict_has k b = true.
Proof.
  unfold same_attributes. intros H Ha. apply andb_true_iff in H as [H _].
  rewrite forallb_forall in H. rewrite dict_has_keys in Ha.
  apply existsb_exists in Ha as (k' & Hin & Hk'). apply str_eqb_eq in Hk'. subst k'.
  now apply H.
Qed.

Lemma same_attributes_right (a b : dict) (k : str) :
  same_attributes a b = true -> In k (keys b) -> dict_has k a = true.
Proof.
  unfold same_attributes. intros H Hb. apply andb_true_iff in H as [_ H].
  rewrite forallb_forall in H. now apply H.
Qed.

Lemma swap_scheduler_takes_first_match (s : str) (schedulers : list str) (st : state) :
  swap_scheduler (VStr s) schedulers st
  = match first_match s schedulers with
    | Some scheduler =>
        (Return (VStr scheduler),
         {| self := self st;
            outside := with_log (log (outside st)
                                 ++ [Print_updating_scheduler_name scheduler])
                                (outside st) |})
    | None => (Return (VStr s), st)
    end.
Proof.
  unfold first_match. induction schedulers as [|scheduler rest IH]; [reflexivity|].
  cbn [swap_scheduler find].
  destruct (is_infix (str_lower s) (str_lower scheduler)); [reflexivity|exact IH].
Qed.

Lemma swap_scheduler_swapped (value : pyvalue) (schedulers : list str)
    (t : dict) (w : world) :
  swap_scheduler value schedulers {| self := t; outside := w |}
  = (fst (swapped value schedulers),
     {| self := t; outside := logged (snd (swapped value schedulers)) w |}).
Proof.
  destruct schedulers as [|scheduler rest].
  - cbn. now rewrite logged_nil.
  - destruct value as [| | | |s| |];
      try (cbn [swap_scheduler swapped fst snd]; unfold raise; now rewrite logged_nil).
    rewrite swap_scheduler_takes_first_match. unfold swapped.
    destruct (first_match s (scheduler :: rest)); cbn [fst snd self outside].
    + reflexivity.
    + now rewrite logged_nil.
Qed.

(** One turn of the loop on an entry whose key is a field: the stored value
    and the prints are those of [remapped_value]. *)
Lemma load_param_run (b : bool) (e : str * pyvalue) (t : dict) (w : world) :
  plain_key (fst e) = true ->
  hasattr t (fst e) = true ->
  load_param b e {| self := t; outside := w |}
  = match remapped_value e with
    | (Return v, prints) =>
        (Return (b || wants_swap e),
         {| self := dict_set (fst e) v t; outside := logged prints w |})
    | (Raise x, prints) => (Raise x, {| self := t; outside := logged prints w |})
    end.
Proof.
  destruct e as [k v]. cbn [fst snd]. intros Hp Hk.
  unfold plain_key in Hp. apply andb_true_iff in Hp as [Hstrip Hd].
  apply str_eqb_eq in Hstrip. apply negb_true_iff in Hd.
  unfold load_param, remapped_value, wants_swap. cbn [fst snd]. rewrite Hstrip.
  destruct (str_eqb k (py "attention")) eqn:Ea.
  - apply str_eqb_eq in Ea. subst k.
    change (str_eqb (py "attention") (py "scheduler")) with false. cbn [andb].
    destruct (py_eq_str v (py "flash_attention")).
    + unfold bind at 1. unfold bind at 1. unfold lift_outcome at 1.
      destruct (last_item list_attention) as [a|x].
      * unfold bind, in_world, emit, modify, ret, gets, setattr, with_self.
        cbn [self outside]. rewrite Hk. cbn [fst snd self outside].
        now rewrite orb_false_r.
      * now rewrite logged_nil.
    + unfold bind, ret, gets, setattr, modify, with_self. cbn [fst snd self outside].
      rewrite Hk. cbn [fst snd self outside].
      now rewrite orb_false_r, logged_nil.
  - cbn [andb]. unfold bind at 1. unfold ret at 1.
    destruct (str_eqb k (py "scheduler")) eqn:Es.
    + apply str_eqb_eq in Es. subst k. cbn [andb].
      destruct (existsb (py_eq_str v) get_scheduler_names); cbn [negb].
      * unfold bind, ret, gets, setattr, modify, with_self. cbn [fst snd self outside].
        rewrite Hk. cbn [fst snd self outside].
        now rewrite orb_false_r, logged_nil.
      * unfold bind at 1. unfold bind at 1. rewrite swap_scheduler_swapped.
        destruct (swapped v get_scheduler_names) as [[v'|x] prints]; cbn [fst snd].
        -- unfold bind, ret, gets, setattr, modify, with_self. cbn [fst snd self outside].
           rewrite Hk. cbn [fst snd self outside]. now rewrite orb_true_r.
        -- reflexivity.
    + cbn [andb]. unfold bind, ret, gets, setattr, modify, with_self.
      cbn [fst snd self outside]. rewrite Hk.
      rewrite (validate_param_key k v Hd). cbn [self outside].
      now rewrite orb_false_r, logged_nil.
Qed.

Lemma load_params_loop_run (entries : dict) :
  forall b t w,
    forallb plain_key (keys entries) = true ->
    (forall k, In k (keys entries) -> hasattr t k = true) ->
    exists t',
      load_params_loop b entries {| self := t; outside := w |}
      = (match fst (remapped entries) with
         | Return _ => Return (b || existsb wants_swap entries)
         | Raise x => Raise x
         end,
         {| self := t'; outside := logged (snd (remapped entries)) w |})
      /\ forall stored, fst (remapped entries) = Return stored ->
           t' = fold_left (fun d e => dict_set (fst e) (snd e) d) stored t.
Proof.
  induction entries as [|e entries IH]; intros b t w Hp Hk.
  - exists t. cbn. rewrite logged_nil, orb_false_r. split; [reflexivity|].
    intros stored H. inversion H. reflexivity.
  - unfold keys in Hp. cbn [map forallb] in Hp. apply andb_true_iff in Hp as [Hpe Hp].
    cbn [load_params_loop remapped]. unfold bind.
    rewrite load_param_run; [|exact Hpe|apply Hk; now left].
    destruct (remapped_value e) as [[v|x] prints].
    + destruct (IH (b || wants_swap e) (dict_set (fst e) v t) (logged prints w) Hp)
        as (t' & Hrun & Hstored).
      { intros k Hin. rewrite hasattr_set; [|apply Hk; now left]. apply Hk. now right. }
      exists t'. rewrite Hrun.
      destruct (remapped entries) as [[stored|x] prints']; cbn [fst snd] in *.
      * cbn [existsb]. rewrite logged_app, orb_assoc. split; [reflexivity|].
        intros s H. inversion H; subst. cbn [fold_left fst snd]. now apply Hstored.
      * rewrite logged_app. split; [reflexivity|]. intros s H. discriminate.
    + exists t. cbn [fst snd]. split; [reflexivity|]. intros s H; discriminate.
Qed.

Lemma remapped_keys (entries : dict) :
  forall stored, fst (remapped entries) = Return stored -> keys stored = keys entries.
Proof.
  induction entries as [|e entries IH]; intros stored H.
  - cbn in H. inversion H. reflexivity.
  - cbn [remapped] in H. destruct (remapped_value e) as [[v|x] prints]; [|discriminate].
    destruct (remapped entries) as [[s|x] prints']; [|discriminate].
    cbn [fst] in *. inversion H; subst. unfold keys. cbn [map fst]. f_equal.
    now apply IH.
Qed.

Lemma remapped_get (entries : dict) :
  forall stored, fst (remapped entries) = Return stored ->
  forall k,
    dict_get k stored
    = match dict_get k entries with
      | Some v => match fst (remapped_value (k, v)) with
                  | Return v' => Some v'
                  | Raise _ => None
                  end
      | None => None
      end.
Proof.
  induction entries as [|[k0 v0] entries IH]; intros stored H k.
  - cbn in H. inversion H. reflexivity.
  - cbn [remapped] in H.
    destruct (remapped_value (k0, v0)) as [[v|x] prints] eqn:Ev; [|discriminate].
    destruct (remapped entries) as [[s|x] prints']; [|discriminate].
    cbn [fst] in *. inversion H; subst. cbn [dict_get].
    destruct (str_eqb k k0) eqn:E.
    + apply str_eqb_eq in E. subst k0. now rewrite Ev.
    + now apply IH.
Qed.

Lemma remapped_value_settled (e : str * pyvalue) :
  settled e = true -> remapped_value e = (Return (snd e), []).
Proof.
  intros Hs. unfold settled in Hs.
  apply andb_true_iff in Hs as [Hs Hm]. apply andb_true_iff in Hs as [Hs Hsch].
  apply andb_true_iff in Hs as [_ Hatt]. apply negb_true_iff in Hatt.
  apply migration_free_validate in Hm.
  unfold remapped_value. rewrite Hatt, Hm.
  destruct (str_eqb (fst e) (py "scheduler")); [|reflexivity].
  cbn [negb orb] in Hsch. now rewrite Hsch.
Qed.

Lemma remapped_settled (entries : dict) :
  forallb settled entries = true -> remapped entries = (Return entries, []).
Proof.
  induction entries as [|[k v] entries IH]; intros H; [reflexivity|].
  cbn [forallb] in H. apply andb_true_iff in H as [He H].
  cbn [remapped]. rewrite (remapped_value_settled _ He), (IH H). reflexivity.
Qed.

Lemma settled_wants_no_swap (entries : dict) :
  forallb settled entries = true -> existsb wants_swap entries = false.
Proof.
  induction entries as [|e entries IH]; intros H; [reflexivity|].
  cbn [forallb] in H. apply andb_true_iff in H as [He H].
  cbn [existsb]. rewrite (IH H), orb_false_r.
  unfold settled in He.
  apply andb_true_iff in He as [He _]. apply andb_true_iff in He as [He Hsch].
  apply andb_true_iff in He as [Hstrip _]. apply str_eqb_eq in Hstrip.
  unfold wants_swap. rewrite Hstrip.
  destruct (str_eqb (fst e) (py "scheduler")); [|reflexivity].
  cbn [negb orb] in Hsch. now rewrite Hsch.
Qed.

Lemma normalise_separators_again (v : pyvalue) (dir : str) :
  normalise_separators v = Return (VStr dir) ->
  normalise_separators (VStr dir) = Return (VStr dir).
Proof.
  unfold normalise_separators. intros H.
  destruct (str_eqb os_name (py "nt")).
  - destruct v; cbn [contains replace_in] in H; try discriminate.
    + cbn [contains].
      destruct (is_infix (py "/") s) eqn:E; inversion H; subst.
      * change (py "/") with [47%N]. unfold backslash.
        now rewrite (replace_char_gone 47%N 92%N).
      * now rewrite E.
    + destruct (existsb _ l); discriminate.
    + destruct (dict_has (py "/") d); discriminate.
  - destruct (str_eqb os_name (py "posix")); [|reflexivity].
    destruct v; cbn [contains replace_in] in H; try discriminate.
    + cbn [contains].
      destruct (is_infix backslash s) eqn:E; inversion H; subst.
      * change (py "/") with [47%N]. unfold backslash.
        now rewrite (replace_char_gone 92%N 47%N).
      * now rewrite E.
    + destruct (existsb _ l); discriminate.
    + destruct (dict_has backslash d); discriminate.
Qed.

Lemma save_false_run (t : dict) (w : world) (v : pyvalue) (dir : str) (f : file) :
  dict_get (py "model_dir") t = Some v ->
  normalise_separators v = Return (VStr dir) ->
  fs_get (path_join dir [py "db_config.json"]) (fs w) = Some (File f) ->
  save false {| self := t; outside := w |}
  = (Return tt,
     {| self := dict_set (py "model_dir") (VStr dir) t;
        outside :=
          with_fs (fs_set (path_join dir [py "db_config.json"])
                     (File (Json (VDict (dict_set (py "model_dir") (VStr dir) t))))
                     (fs w))
                  (with_log (log w ++ [Debug_saving_to v]) w) |}).
Proof.
  intros Hv Hn Hf. unfold save.
  erewrite bind_returns; [|apply getattr_run; exact Hv].
  unfold bind at 1. unfold in_world at 1, emit at 1, modify at 1. cbn [outside self].
  unfold bind at 1. unfold lift_outcome at 1. rewrite Hn.
  unfold bind at 1. unfold setattr at 1, modify at 1. unfold with_self. cbn [self outside].
  unfold bind at 1. unfold lift_outcome at 1. cbn [as_path].
  unfold bind at 1. unfold ret at 1.
  unfold bind, gets, in_world, write_json. cbn [self outside fs with_log].
  rewrite Hf. reflexivity.
Qed.

Lemma remapped_value_model_dir (v : pyvalue) :
  remapped_value (py "model_dir", v) = (Return v, []).
Proof. reflexivity. Qed.

Lemma dict_has_remapped (entries stored : dict) (k : str) :
  fst (remapped entries) = Return stored -> dict_has k stored = dict_has k entries.
Proof.
  intros H. rewrite !dict_has_keys. now rewrite (remapped_keys _ _ H).
Qed.

(** One [load_from_file] of a file that holds [saved]. *)
Lemma load_from_file_written
    (saved : dict) (w1 : world) (dir : str) (target : dict) :
  distinct (keys saved) = true ->
  forallb plain_key (keys saved) = true ->
  dict_get (py "model_dir") saved = Some (VStr dir) ->
  normalise_separators (VStr dir) = Return (VStr dir) ->
  fs_get (path_join dir [py "db_config.json"]) (fs w1)
  = Some (File (Json (VDict saved))) ->
  same_attributes target saved = true ->
  base_load_from_file (VStr dir) {| self := target; outside := w1 |}
  = (Return tt, {| self := target; outside := w1 |}) ->
  match remapped saved with
  | (Return stored, prints) =>
      exists loaded,
        load_from_file (VStr dir) {| self := target; outside := w1 |}
        = (Return (Some loaded),
           {| self := loaded;
              outside := if existsb wants_swap saved
                         then resaved dir loaded (logged prints w1)
                         else logged prints w1 |})
        /\ same_fields loaded stored
  | (Raise e, prints) =>
      exists partly,
        load_from_file (VStr dir) {| self := target; outside := w1 |}
        = (Return None,
           {| self := partly; outside := reported e (logged prints w1) |})
  end.
Proof.
  intros Hdist Hplain Hdir Hnorm Hfile Hsame Hbase.
  assert (Hread : read_json (path_join dir [py "db_config.json"]) w1
                  = (Return (VDict saved), w1)).
  { unfold read_json. now rewrite Hfile. }
  destruct (load_params_loop_run saved false target w1 Hplain) as (t' & Hrun & Hstored).
  { intros k Hin. unfold hasattr.
    now rewrite (same_attributes_right _ _ _ Hsame Hin). }
  assert (Hload : load_from_file (VStr dir) {| self := target; outside := w1 |}
                  = try_except
                      (load_params (VDict saved) ;; d <- gets self ;; ret (Some d))
                      (fun e => in_world (report_exception e) ;; ret None)
                      {| self := target; outside := w1 |}).
  { unfold load_from_file. unfold lift_outcome at 1. cbn [as_path].
    unfold bind at 1. unfold try_except.
    erewrite bind_returns; [|apply in_world_run; exact Hread].
    erewrite bind_returns; [|exact Hbase]. reflexivity. }
  assert (Hparams : load_params (VDict saved) {| self := target; outside := w1 |}
                    = (sched_swap <- load_params_loop false saved ;;
                       if sched_swap then save false else ret tt)
                        {| self := target; outside := w1 |}).
  { reflexivity. }
  destruct (remapped saved) as [[stored|x] prints] eqn:Er; cbn [fst snd] in *.
  - specialize (Hstored stored eq_refl).
    assert (Hkeys : keys stored = keys saved).
    { apply remapped_keys. now rewrite Er. }
    assert (Hfields : same_fields t' stored).
    { intros k. rewrite Hstored, fold_dict_set_get; [|now rewrite Hkeys].
      destruct (dict_get k stored) eqn:E; [reflexivity|].
      destruct (dict_get k target) eqn:Et; [|reflexivity].
      assert (Hk : dict_has k target = true) by (unfold dict_has; now rewrite Et).
      apply (same_attributes_left _ _ _ Hsame) in Hk.
      rewrite <- (dict_has_remapped saved stored k) in Hk; [|now rewrite Er].
      unfold dict_has in Hk. now rewrite E in Hk. }
    exists t'. split; [|exact Hfields].
    rewrite Hload. unfold try_except.
    unfold bind at 1. rewrite Hparams. unfold bind at 1. rewrite Hrun.
    cbn [orb]. destruct (existsb wants_swap saved).
    + assert (Hmd : dict_get (py "model_dir") t' = Some (VStr dir)).
      { rewrite Hfields. rewrite (remapped_get saved stored); [|now rewrite Er].
        now rewrite Hdir, remapped_value_model_dir. }
      erewrite save_false_run;
        [|exact Hmd|exact Hnorm|cbn [logged with_log fs]; exact Hfile].
      rewrite (dict_set_same _ _ _ Hmd). reflexivity.
    + reflexivity.
  - exists t'. rewrite Hload. unfold try_except.
    unfold bind at 1. rewrite Hparams. unfold bind at 1. rewrite Hrun.
    unfold bind. erewrite in_world_run; [|apply report_exception_run].
    reflexivity.
Qed.

(** C4, as amended.  [save()] writes the fields of the object with
    [model_dir] in the separators of the host.  [load_from_file] on the
    directory written to then returns an object whose fields are the
    written ones after the remapping of [load_params] ([remapped]: the
    attention, the scheduler and the old values of the migration table),
    and saves again when a scheduler was swapped; where the remapping
    raises, it reports the exception and returns [None].  None of this
    depends on what the object loaded into held before: two loads of the
    file, into [target] and into [other], set identical fields.  When none
    of the written entries holds a legacy value ([settled]), the loaded
    fields are the written ones and nothing is written or printed. *)
Theorem save_then_load_from_file
    (cfg : dict) (w : world) (saved : dict) (w1 : world) (dir : str)
    (target other : dict) :
  distinct (keys cfg) = true ->
  forallb plain_key (keys cfg) = true ->
  save false {| self := cfg; outside := w |}
    = (Return tt, {| self := saved; outside := w1 |}) ->
  dict_get (py "model_dir") saved = Some (VStr dir) ->
  loadable target saved dir w1 ->
  loadable other saved dir w1 ->
  (exists v, dict_get (py "model_dir") cfg = Some v
             /\ normalise_separators v = Return (VStr dir)
             /\ saved = dict_set (py "model_dir") (VStr dir) cfg)
  /\ match remapped saved with
     | (Return stored, prints) =>
         exists loaded,
           load_from_file (VStr dir) {| self := target; outside := w1 |}
           = (Return (Some loaded),
              {| self := loaded;
                 outside := if existsb wants_swap saved
                            then resaved dir loaded (logged prints w1)
                            else logged prints w1 |})
           /\ same_fields loaded stored
     | (Raise e, prints) =>
         exists partly,
           load_from_file (VStr dir) {| self := target; outside := w1 |}
           = (Return None,
              {| self := partly; outside := reported e (logged prints w1) |})
     end
  /\ ((result_of (load_from_file (VStr dir) {| self := target; outside := w1 |})
       = Return None
       /\ result_of (load_from_file (VStr dir) {| self := other; outside := w1 |})
          = Return None)
      \/ exists loaded loaded',
           result_of (load_from_file (VStr dir) {| self := target; outside := w1 |})
           = Return (Some loaded)
           /\ result_of (load_from_file (VStr dir) {| self := other; outside := w1 |})
              = Return (Some loaded')
           /\ same_fields loaded loaded')
  /\ (forallb settled saved = true ->
      exists loaded,
        load_from_file (VStr dir) {| self := target; outside := w1 |}
        = (Return (Some loaded), {| self := loaded; outside := w1 |})
        /\ same_fields loaded saved).
Proof.
  intros Hdist Hplain Hsave Hdir Htarget Hother.
  apply save_false_done in Hsave. cbn [self outside] in Hsave.
  destruct Hsave as (v & dir' & Hv & Hn & Hsaved & Hw1).
  assert (dir' = dir).
  { rewrite Hsaved, dict_get_set_same in Hdir. now inversion Hdir. }
  subst dir'.
  assert (Hkeys : keys saved = keys cfg).
  { rewrite Hsaved. apply keys_dict_set. unfold dict_has. now rewrite Hv. }
  assert (Hfile : fs_get (path_join dir [py "db_config.json"]) (fs w1)
                  = Some (File (Json (VDict saved)))).
  { rewrite Hw1 at 1. cbn [fs with_fs]. now rewrite fs_get_set_same. }
  assert (Hnorm : normalise_separators (VStr dir) = Return (VStr dir)).
  { now apply normalise_separators_again with (v := v). }
  rewrite <- Hkeys in Hdist, Hplain.
  destruct Htarget as [Hsame Hbase]. destruct Hother as [Hsame' Hbase'].
  pose proof (load_from_file_written saved w1 dir target
                Hdist Hplain Hdir Hnorm Hfile Hsame Hbase) as L.
  pose proof (load_from_file_written saved w1 dir other
                Hdist Hplain Hdir Hnorm Hfile Hsame' Hbase') as L'.
  split; [exists v; auto|]. split; [exact L|]. split.
  - destruct (remapped saved) as [[stored|x] prints].
    + right. destruct L as (loaded & E & F). destruct L' as (loaded' & E' & F').
      exists loaded, loaded'. rewrite E, E'.
      split; [reflexivity|]. split; [reflexivity|].
      intros k. now rewrite F, F'.
    + left. destruct L as (p & E). destruct L' as (p' & E').
      rewrite E, E'. split; reflexivity.
  - intros Hsettled.
    rewrite (remapped_settled _ Hsettled) in L.
    rewrite (settled_wants_no_swap _ Hsettled), logged_nil in L. exact L.
Qed.

End RoundTrip.

Lemma save_then_load_from_file_witness :
  (exists v, dict_get (py "model_dir") (self m1_state) = Some v
             /\ normalise_separators v = Return (VStr (py "models/dreambooth/m1"))
             /\ saved_fields
                = dict_set (py "model_dir") (VStr (py "models/dreambooth/m1"))
                    (self m1_state))
  /\ match remapped saved_fields with
     | (Return stored, prints) =>
         exists loaded,
           load_from_file (VStr (py "models/dreambooth/m1"))
             {| self := self settled_state; outside := saved_world |}
           = (Return (Some loaded),
              {| self := loaded;
                 outside := if existsb wants_swap saved_fields
                            then resaved (py "models/dreambooth/m1") loaded
                                   (logged prints saved_world)
                            else logged prints saved_world |})
           /\ same_fields loaded stored
     | (Raise e, prints) =>
         exists partly,
           load_from_file (VStr (py "models/dreambooth/m1"))
             {| self := self settled_state; outside := saved_world |}
           = (Return None,
              {| self := partly; outside := reported e (logged prints saved_world) |})
     end
  /\ ((result_of (load_from_file (VStr (py "models/dreambooth/m1"))
                    {| self := self settled_state; outside := saved_world |})
       = Return None
       /\ result_of (load_from_file (VStr (py "models/dreambooth/m1"))
                       {| self := self windows_state; outside := saved_world |})
          = Return None)
      \/ exists loaded loaded',
           result_of (load_from_file (VStr (py "models/dreambooth/m1"))
                        {| self := self settled_state; outside := saved_world |})
           = Return (Some loaded)
           /\ result_of (load_from_file (VStr (py "models/dreambooth/m1"))
                           {| self := self windows_state; outside := saved_world |})
              = Return (Some loaded')
           /\ same_fields loaded loaded')
  /\ (forallb settled saved_fields = true ->
      exists loaded,
        load_from_file (VStr (py "models/dreambooth/m1"))
          {| self := self settled_state; outside := saved_world |}
        = (Return (Some loaded), {| self := loaded; outside := saved_world |})
        /\ same_fields loaded saved_fields).
Proof.
  apply (@save_then_load_from_file posix_host
           (self m1_state) (outside m1_state) saved_fields saved_world
           (py "models/dreambooth/m1") (self settled_state) (self windows_state)).
  - vm_compute. reflexivity.
  - vm_compute. reflexivity.
  - vm_compute. reflexivity.
  - vm_compute. reflexivity.
  - split; vm_compute; reflexivity.
  - split; vm_compute; reflexivity.
Defined.


(** ** The example runs *)

(** C2, the code at the failing input.  A [TrainingConfig] has no attribute
    [deis_train_scheduler], so [load_params({"deis_train_scheduler": True})]
    drops the entry before the table is consulted: [noise_scheduler] stays
    ["DDIM"]. *)
Theorem load_params_drops_deis_train_scheduler :
  dict_get (py "noise_scheduler") (self ddim_state) = Some (VStr (py "DDIM"))
  /\ hasattr (self ddim_state) (py "deis_train_scheduler") = false
  /\ load_params (VDict [(py "deis_train_scheduler", VBool true)]) ddim_state
     = (Return tt, ddim_state).
Proof. repeat (split; [vm_compute; reflexivity|]). vm_compute; reflexivity. Qed.

(** C6, counterexample.  The legacy optimizer name is remapped and nothing
    is saved; an unknown scheduler name is stored as it is, not remapped,
    and the configuration is saved. *)
Lemma load_params_save_differs_from_remapping :
  result_of (load_params (VDict [(py "optimizer", VStr (py "8Bit Adam"))]) m1_state)
    = Return tt
  /\ dict_get (py "optimizer")
       (self (state_after
                (load_params (VDict [(py "optimizer", VStr (py "8Bit Adam"))]) m1_state)))
     = Some (VStr (py "8bit AdamW"))
  /\ outside (state_after
                (load_params (VDict [(py "optimizer", VStr (py "8Bit Adam"))]) m1_state))
     = outside m1_state
  /\ result_of (load_params (VDict [(py "scheduler", VStr (py "euler"))]) m1_state)
     = Return tt
  /\ dict_get (py "scheduler")
       (self (state_after
                (load_params (VDict [(py "scheduler", VStr (py "euler"))]) m1_state)))
     = Some (VStr (py "euler"))
  /\ saves_logged
       (outside (state_after
                   (load_params (VDict [(py "scheduler", VStr (py "euler"))]) m1_state)))
     = 1.
Proof. repeat (split; [vm_compute; reflexivity|]). vm_compute; reflexivity. Qed.

Lemma load_params_saves_on_scheduler_swap_witness :
  saves_logged
    (outside (state_after
                (load_params (VDict [(py "scheduler", VStr (py "ddim"))]) m1_state)))
  = S (saves_logged (outside m1_state))
  /\ exists dir,
       dict_get (py "model_dir")
         (self (state_after
                  (load_params (VDict [(py "scheduler", VStr (py "ddim"))]) m1_state)))
       = Some (VStr dir)
       /\ fs_get (path_join dir [py "db_config.json"])
            (fs (outside (state_after
                   (load_params (VDict [(py "scheduler", VStr (py "ddim"))]) m1_state))))
          = Some (File (Json (VDict
               (self (state_after
                  (load_params (VDict [(py "scheduler", VStr (py "ddim"))]) m1_state)))))).
Proof.
  apply (proj2 (@load_params_saves_on_scheduler_swap posix_host
                  [(py "scheduler", VStr (py "ddim"))] m1_state
                  (result_of (load_params (VDict [(py "scheduler", VStr (py "ddim"))]) m1_state))
                  (state_after (load_params (VDict [(py "scheduler", VStr (py "ddim"))]) m1_state))
                  (surjective_pairing _))).
  - vm_compute. reflexivity.
  - vm_compute. reflexivity.
Defined.

(** C8, the code at the failing input.  [save()] writes
    [<models_path>/m1/db_config.json] (and, with [backup=True], only
    [<models_path>/m1/backups/db_config_0.json]); [load_from_file] reads it
    back; [from_file("m1")] looks for [train_config.json] instead, finds
    nothing and returns [None]. *)
Theorem from_file_misses_saved_config :
  result_of (save false m1_state) = Return tt
  /\ fs_get (py "models/dreambooth/m1/db_config.json") (fs saved_world)
     = Some (File (Json (VDict (self m1_state))))
  /\ fs_get (py "models/dreambooth/m1/train_config.json") (fs saved_world) = None
  /\ from_file (VStr (py "m1")) VNone saved_world
     = (Return None, reported FileNotFoundError saved_world)
  /\ (exists loaded,
        result_of (load_from_file (VStr (py "models/dreambooth/m1"))
                     {| self := self m1_state; outside := saved_world |})
        = Return (Some loaded))
  /\ result_of (save true m1_state) = Return tt
  /\ fs_get (py "models/dreambooth/m1/backups/db_config_0.json")
       (fs (outside (state_after (save true m1_state))))
     = Some (File (Json (VDict (self m1_state))))
  /\ fs_get (py "models/dreambooth/m1/db_config.json")
       (fs (outside (state_after (save true m1_state))))
     = None.
Proof.
  do 4 (split; [vm_compute; reflexivity|]).
  split; [eexists; vm_compute; reflexivity|].
  repeat (split; [vm_compute; reflexivity|]). vm_compute; reflexivity.
Qed.

(** C9, counterexample.  [load_params({"scheduler": "ddim"})] names no
    [model_dir], yet [model_dir] changes: the re-save rewrites its
    separators. *)
Lemma load_params_rewrites_model_dir :
  existsb (names_field (self windows_state) (py "model_dir"))
    [(py "scheduler", VStr (py "ddim"))] = false
  /\ dict_get (py "model_dir") (self windows_state)
     = Some (VStr (py "models\dreambooth\m1"))
  /\ result_of (load_params (VDict [(py "scheduler", VStr (py "ddim"))]) windows_state)
     = Return tt
  /\ dict_get (py "model_dir")
       (self (state_after
                (load_params (VDict [(py "scheduler", VStr (py "ddim"))]) windows_state)))
     = Some (VStr (py "models/dreambooth/m1")).
Proof. repeat (split; [vm_compute; reflexivity|]). vm_compute; reflexivity. Qed.

(** C4, counterexample.  After [save()] and [load_from_file] on the
    directory written to, [model_dir] and [scheduler] differ from the
    original fields. *)
Lemma save_load_changes_fields :
  result_of (save false windows_state) = Return tt
  /\ dict_get (py "model_dir") (self windows_state)
     = Some (VStr (py "models\dreambooth\m1"))
  /\ dict_get (py "scheduler") (self windows_state) = Some (VStr (py "ddim"))
  /\ exists loaded,
       result_of (load_from_file (VStr (py "models/dreambooth/m1"))
                    (state_after (save false windows_state)))
       = Return (Some loaded)
       /\ dict_get (py "model_dir") loaded = Some (VStr (py "models/dreambooth/m1"))
       /\ dict_get (py "scheduler") loaded = Some (VStr (py "DDIM")).
Proof.
  do 3 (split; [vm_compute; reflexivity|]).
  eexists. split; [vm_compute; reflexivity|].
  split; vm_compute; reflexivity.
Qed.

Lemma load_params_frame_witness :
  (forall k, hasattr (self (state_after (load_params (VDict ui_params) m1_state))) k
             = hasattr (self m1_state) k)
  /\ (forall b e st, TrainingConfig_shape (self st) = true ->
                     hasattr (self st) (strip_db (fst e)) = false ->
                     load_param b e st = (Return b, st))
  /\ (forall f, existsb (names_field (self m1_state) f) ui_params = false ->
                str_eqb f (py "model_dir") = false ->
                dict_get f (self (state_after (load_params (VDict ui_params) m1_state)))
                = dict_get f (self m1_state))
  /\ (existsb (names_field (self m1_state) (py "model_dir")) ui_params = false ->
      (existsb wants_swap ui_params = false ->
       dict_get (py "model_dir")
         (self (state_after (load_params (VDict ui_params) m1_state)))
       = dict_get (py "model_dir") (self m1_state))
      /\ (dict_get (py "model_dir")
            (self (state_after (load_params (VDict ui_params) m1_state)))
          = dict_get (py "model_dir") (self m1_state)
          \/ exists v v',
               dict_get (py "model_dir") (self m1_state) = Some v
               /\ normalise_separators v = Return v'
               /\ dict_get (py "model_dir")
                    (self (state_after (load_params (VDict ui_params) m1_state)))
                  = Some v')).
Proof.
  apply (@load_params_frame posix_host (self m1_state) (outside m1_state) ui_params
           (result_of (load_params (VDict ui_params) m1_state))
           (state_after (load_params (VDict ui_params) m1_state))).
  - vm_compute. reflexivity.
  - vm_compute. reflexivity.
Defined.

(** * Further properties *)

(** X1.  What [validate_param] returns needs no further migration: the
    returned key is never the retired [deis_train_scheduler], and the
    returned value is not an old value of any rule of the returned key. *)
Theorem validate_param_leaves_nothing_to_migrate (key : str) (value : pyvalue) :
  migration_free (fst (validate_param key value)) (snd (validate_param key value)) = true
  /\ str_eqb (fst (validate_param key value)) (py "deis_train_scheduler") = false.
Proof.
  rewrite validate_param_cases.
  destruct (str_eqb key (py "weight_decay")) eqn:E1.
  { split; reflexivity. }
  destruct (str_eqb key (py "deis_train_scheduler")) eqn:E2.
  { split; reflexivity. }
  destruct (str_eqb key (py "optimizer")) eqn:E3.
  { apply str_eqb_eq in E3. subst key. cbn [fst snd]. split; [|reflexivity].
    destruct (py_eq_str value (py "8Bit Adam")) eqn:E; [reflexivity|].
    unfold migration_free, replaced_params. cbn [table_get].
    change (str_eqb (py "optimizer") (py "weight_decay")) with false.
    change (str_eqb (py "optimizer") (py "deis_train_scheduler")) with false.
    change (str_eqb (py "optimizer") (py "optimizer")) with true.
    cbn [new_key rules_of values forallb py_in existsb old py_eq andb].
    now rewrite E. }
  destruct (str_eqb key (py "save_safetensors")) eqn:E4.
  { apply str_eqb_eq in E4. subst key. cbn [fst snd]. split; [|reflexivity].
    destruct (py_eq_bool value false) eqn:E; [reflexivity|].
    unfold migration_free, replaced_params. cbn [table_get].
    change (str_eqb (py "save_safetensors") (py "weight_decay")) with false.
    change (str_eqb (py "save_safetensors") (py "deis_train_scheduler")) with false.
    change (str_eqb (py "save_safetensors") (py "optimizer")) with false.
    change (str_eqb (py "save_safetensors") (py "save_safetensors")) with true.
    cbn [new_key rules_of values forallb py_in existsb old py_eq andb].
    now rewrite E. }
  cbn [fst snd]. split; [|exact E2].
  unfold migration_free, replaced_params. cbn [table_get].
  now rewrite E1, E2, E3, E4.
Qed.

Lemma replace_from_absent (old new s : str) :
  is_infix old s = false -> replace_from old new 0 s = s.
Proof.
  induction s as [|c s IH]; [reflexivity|].
  cbn [is_infix replace_from]. intros H. apply orb_false_iff in H as [Hp Hi].
  rewrite Hp. f_equal. now apply IH.
Qed.

Section Keys.

Context {host : Host}.

(** X2.  A key without ["db_"] in it is left alone by the stripping of
    [load_params], and the same key with the prefix ["db_"] is mapped to it:
    the UI name [db_<field>] addresses [<field>]. *)
Theorem strip_db_maps_ui_keys (key : str) :
  is_infix (py "db_") key = false ->
  strip_db key = key /\ strip_db (py "db_" ++ key) = key.
Proof.
  intros H. split.
  - unfold strip_db. now rewrite H.
  - unfold strip_db.
    change (py "db_" ++ key) with (100%N :: 98%N :: 95%N :: key).
    change (py "db_") with [100%N; 98%N; 95%N].
    cbn [is_infix is_prefix N.eqb Pos.eqb andb orb].
    unfold replace. cbn [replace_from is_prefix N.eqb Pos.eqb andb List.length Nat.sub app].
    now apply replace_from_absent.
Qed.

End Keys.

Lemma fs_get_set_other (p q : str) (n : node) (f : filesystem) :
  str_eqb p q = false -> fs_get p (fs_set q n f) = fs_get p f.
Proof.
  intros Hp. induction f as [|[p' n'] f IH]; cbn [fs_set fs_get].
  - now rewrite Hp.
  - destruct (str_eqb q p') eqn:E; cbn [fs_get].
    + apply str_eqb_eq in E. subst p'. now rewrite Hp.
    + destruct (str_eqb p p'); auto.
Qed.

Section Save.

Context {host : Host}.

(** A completed [save(backup=True)] in full. *)
Lemma save_backup_done (st st' : state) :
  save true st = (Return tt, st') ->
  exists v dir revision,
    dict_get (py "model_dir") (self st) = Some v
    /\ normalise_separators v = Return (VStr dir)
    /\ self st' = dict_set (py "model_dir") (VStr dir) (self st)
    /\ dict_get (py "revision") (self st') = Some revision
    /\ fs (outside st')
       = fs_set (backup_file dir revision) (File (Json (VDict (self st'))))
           (match fs_get (path_join dir [py "backups"]) (fs (outside st)) with
            | Some _ => fs (outside st)
            | None => fs_set (path_join dir [py "backups"]) Dir (fs (outside st))
            end).
Proof.
  destruct st as [cfg w]. unfold save. unfold bind at 1. unfold getattr at 1. cbn [self].
  destruct (dict_get (py "model_dir") cfg) as [v|] eqn:Ev; [|discriminate].
  unfold bind at 1. unfold in_world at 1, emit at 1, modify at 1. cbn [outside self].
  unfold bind at 1. unfold lift_outcome at 1.
  destruct (normalise_separators v) as [v'|x] eqn:En; [|discriminate].
  unfold bind at 1. unfold setattr at 1, modify at 1. unfold with_self. cbn [self outside].
  unfold bind at 1. unfold lift_outcome at 1.
  destruct v' as [| | | |dir| |]; cbn [as_path]; try discriminate.
  unfold bind at 1. unfold bind at 1.
  unfold in_world at 1, path_exists at 1, gets at 1. cbn [outside self fs with_log].
  unfold bind at 1.
  destruct (fs_get (path_join dir [py "backups"]) (fs w)) as [n|] eqn:Eb.
  - unfold ret at 1. unfold bind at 1. unfold getattr at 1. cbn [self].
    destruct (dict_get (py "revision") (dict_set (py "model_dir") (VStr dir) cfg))
      as [revision|] eqn:Er; [|discriminate].
    unfold ret at 1. unfold bind, gets, in_world, write_json. cbn [self outside fs with_log].
    fold (backup_file dir revision).
    destruct (fs_get (backup_file dir revision) (fs w)) as [[|f]|]; try discriminate;
      intros H; inversion H; subst; cbn [self outside fs with_fs with_log];
      exists v, dir, revision; repeat (split; [first [reflexivity|assumption]|]);
      cbn [fs]; rewrite Eb; reflexivity.
  - unfold in_world at 1, makedirs at 1. cbn [outside self fs with_log]. rewrite Eb.
    unfold bind at 1. unfold getattr at 1. cbn [self].
    destruct (dict_get (py "revision") (dict_set (py "model_dir") (VStr dir) cfg))
      as [revision|] eqn:Er; [|discriminate].
    unfold ret at 1. unfold bind, gets, in_world, write_json.
    cbn [self outside fs with_fs with_log].
    fold (backup_file dir revision).
    destruct (fs_get (backup_file dir revision)
                (fs_set (path_join dir [py "backups"]) Dir (fs w))) as [[|f]|];
      try discriminate;
      intros H; inversion H; subst; cbn [self outside fs with_fs with_log];
      exists v, dir, revision; repeat (split; [first [reflexivity|assumption]|]);
      cbn [fs]; rewrite Eb; reflexivity.
Qed.

(** X4.  With the model directory in place, a completed
    [save(backup=True)] leaves the fields of the object in
    [<model_dir>/backups/db_config_<revision>.json] and changes no other
    path than that file and the [backups] directory; the live
    [db_config.json], a different path, is as it was. *)
Theorem save_backup_touches_only_backups (st st' : state) (dir : str) :
  save true st = (Return tt, st') ->
  dict_get (py "model_dir") (self st') = Some (VStr dir) ->
  fs_get dir (fs (outside st)) = Some Dir ->
  exists revision,
    dict_get (py "revision") (self st') = Some revision
    /\ fs_get (backup_file dir revision) (fs (outside st'))
       = Some (File (Json (VDict (self st'))))
    /\ (forall p,
          str_eqb p (backup_file dir revision) = false ->
          str_eqb p (path_join dir [py "backups"]) = false ->
          fs_get p (fs (outside st')) = fs_get p (fs (outside st)))
    /\ (str_eqb (path_join dir [py "db_config.json"]) (backup_file dir revision) = false ->
        str_eqb (path_join dir [py "db_config.json"]) (path_join dir [py "backups"])
        = false ->
        fs_get (path_join dir [py "db_config.json"]) (fs (outside st'))
        = fs_get (path_join dir [py "db_config.json"]) (fs (outside st))).
Proof.
  intros H Hdir _. apply save_backup_done in H.
  destruct H as (v & dir' & revision & Hv & Hn & Hself & Hrev & Hfs).
  assert (dir' = dir).
  { rewrite Hself, dict_get_set_same in Hdir. now inversion Hdir. }
  subst dir'.
  assert (Hframe : forall p,
             str_eqb p (backup_file dir revision) = false ->
             str_eqb p (path_join dir [py "backups"]) = false ->
             fs_get p (fs (outside st')) = fs_get p (fs (outside st))).
  { intros p Hp1 Hp2. rewrite Hfs. rewrite (fs_get_set_other _ _ _ _ Hp1).
    destruct (fs_get (path_join dir [py "backups"]) (fs (outside st))); [reflexivity|].
    now apply fs_get_set_other. }
  exists revision. split; [exact Hrev|]. split; [|split].
  - rewrite Hfs. apply fs_get_set_same.
  - exact Hframe.
  - apply Hframe.
Qed.

Lemma normalise_separators_host (v : pyvalue) (dir : str) :
  normalise_separators v = Return (VStr dir) ->
  (os_name = py "posix" -> is_infix backslash dir = false)
  /\ (os_name = py "nt" -> is_infix (py "/") dir = false).
Proof.
  unfold normalise_separators. intros H. split; intros Hos; rewrite Hos in H.
  - change (str_eqb (py "posix") (py "nt")) with false in H.
    change (str_eqb (py "posix") (py "posix")) with true in H.
    destruct v; cbn [contains replace_in] in H; try discriminate.
    + destruct (is_infix backslash s) eqn:E; inversion H; subst.
      * apply (replace_char_gone 92%N 47%N). reflexivity.
      * exact E.
    + destruct (existsb _ l); discriminate.
    + destruct (dict_has backslash d); discriminate.
  - change (str_eqb (py "nt") (py "nt")) with true in H.
    destruct v; cbn [contains replace_in] in H; try discriminate.
    + destruct (is_infix (py "/") s) eqn:E; inversion H; subst.
      * apply (replace_char_gone 47%N 92%N). reflexivity.
      * exact E.
    + destruct (existsb _ l); discriminate.
    + destruct (dict_has (py "/") d); discriminate.
Qed.

(** X5.  After a completed [save], [model_dir] is a string in the
    separators of the host: no backslash on POSIX, no slash on Windows. *)
Theorem save_leaves_host_separators (backup : bool) (st st' : state) :
  save backup st = (Return tt, st') ->
  exists dir,
    dict_get (py "model_dir") (self st') = Some (VStr dir)
    /\ (os_name = py "posix" -> is_infix backslash dir = false)
    /\ (os_name = py "nt" -> is_infix (py "/") dir = false).
Proof.
  destruct backup; intros H.
  - apply save_backup_done in H.
    destruct H as (v & dir & revision & Hv & Hn & Hself & _).
    exists dir. split; [rewrite Hself; apply dict_get_set_same|].
    now apply normalise_separators_host with (v := v).
  - apply save_false_done in H. destruct H as (v & dir & Hv & Hn & Hself & _).
    exists dir. split; [rewrite Hself; apply dict_get_set_same|].
    now apply normalise_separators_host with (v := v).
Qed.

End Save.

Lemma save_backup_touches_only_backups_witness :
  exists revision,
    dict_get (py "revision") (self (state_after (save true m1_on_disk))) = Some revision
    /\ fs_get (backup_file (py "models/dreambooth/m1") revision)
         (fs (outside (state_after (save true m1_on_disk))))
       = Some (File (Json (VDict (self (state_after (save true m1_on_disk))))))
    /\ (forall p,
          str_eqb p (backup_file (py "models/dreambooth/m1") revision) = false ->
          str_eqb p (path_join (py "models/dreambooth/m1") [py "backups"]) = false ->
          fs_get p (fs (outside (state_after (save true m1_on_disk))))
          = fs_get p (fs (outside m1_on_disk)))
    /\ (str_eqb (path_join (py "models/dreambooth/m1") [py "db_config.json"])
          (backup_file (py "models/dreambooth/m1") revision) = false ->
        str_eqb (path_join (py "models/dreambooth/m1") [py "db_config.json"])
          (path_join (py "models/dreambooth/m1") [py "backups"]) = false ->
        fs_get (path_join (py "models/dreambooth/m1") [py "db_config.json"])
          (fs (outside (state_after (save true m1_on_disk))))
        = fs_get (path_join (py "models/dreambooth/m1") [py "db_config.json"])
            (fs (outside m1_on_disk))).
Proof.
  apply (@save_backup_touches_only_backups posix_host m1_on_disk
           (state_after (save true m1_on_disk)) (py "models/dreambooth/m1")).
  - vm_compute. reflexivity.
  - vm_compute. reflexivity.
  - vm_compute. reflexivity.
Defined.

Lemma save_leaves_host_separators_witness :
  exists dir,
    dict_get (py "model_dir") (self (state_after (save false windows_state)))
    = Some (VStr dir)
    /\ (@os_name posix_host = py "posix" -> is_infix backslash dir = false)
    /\ (@os_name posix_host = py "nt" -> is_infix (py "/") dir = false).
Proof.
  apply (@save_leaves_host_separators posix_host false windows_state
           (state_after (save false windows_state))).
  vm_compute. reflexivity.
Defined.

Lemma bind_inv {S A B} (m : M S A) (k : A -> M S B) (s s' : S) (b : B) :
  bind m k s = (Return b, s') ->
  exists a s1, m s = (Return a, s1) /\ k a s1 = (Return b, s').
Proof.
  unfold bind. destruct (m s) as [[a|e] s1]; [|discriminate].
  intros H. now exists a, s1.
Qed.

Lemma try_except_returns {S A} (body : M S A) (handler : exn -> M S A)
    (P : A -> Prop) (s : S) :
  (forall a s', body s = (Return a, s') -> P a) ->
  (forall e s1, exists a s', handler e s1 = (Return a, s') /\ P a) ->
  exists a s', try_except body handler s = (Return a, s') /\ P a.
Proof.
  intros Hb Hh. unfold try_except.
  destruct (body s) as [[a|e] s1] eqn:E.
  - exists a, s1. split; [reflexivity|]. apply (Hb a s1). reflexivity.
  - apply Hh.
Qed.

Section More.

Context {host : Host}.

Lemma valid_concepts_length (dir : str) (l : list pyvalue) :
  forall c_idx, List.length (valid_concepts dir c_idx l) <= List.length l.
Proof.
  induction l as [|d l IH]; intros c_idx; cbn [valid_concepts List.length]; [lia|].
  destruct (is_valid (Concept_new (Some d))); cbn [List.length];
    [specialize (IH (c_idx + 1)%Z)|specialize (IH c_idx)]; lia.
Qed.

(** X6.  With the default [required = -1] and a stored list (training mode
    other than ["db"]), [concepts] returns exactly the valid concepts of the
    list, in order, and nothing else. *)
Theorem concepts_default_returns_valid_concepts
    (cfg : dict) (w : world) (train_mode : pyvalue) (l : list pyvalue) (md : str) :
  dict_get (py "train_mode") cfg = Some train_mode ->
  py_eq_str train_mode (py "db") = false ->
  dict_get (py "concepts_list") cfg = Some (VList l) ->
  dict_get (py "model_dir") cfg = Some (VStr md) ->
  concepts (-1) {| self := cfg; outside := w |}
  = (Return (valid_concepts md 0 l), {| self := cfg; outside := w |}).
Proof.
  intros Htm Hdb Hcl Hmd.
  unfold concepts. erewrite bind_returns; [|apply getattr_run; exact Htm].
  rewrite Hdb. erewrite bind_returns; [|apply getattr_run; exact Hcl].
  change (Z.eqb (-1) (-1)) with true. cbv iota.
  unfold lift_outcome at 1. cbn [len]. unfold bind at 1.
  unfold lift_outcome at 1. cbn [iterate]. unfold bind at 1.
  erewrite bind_returns; [|apply concepts_loop_run; exact Hmd]. cbn [app].
  pose proof (valid_concepts_length md l 0) as Hlen.
  destruct (0 <? Z.of_nat (List.length (valid_concepts md 0 l)) - Z.of_nat (List.length l))%Z
    eqn:E; [|reflexivity].
  apply Z.ltb_lt in E. lia.
Qed.

(** X7.  Once the path of the configuration file is built, no exception
    leaves a loader: whatever is raised while reading the file, by the base
    class, by [load_params] or by the re-save is caught, so [from_file] and
    [load_from_file] return, and [refresh] returns [None], also on
    success. *)
Theorem loaders_catch_every_exception :
  (forall name model_dir dir w w1,
      name <> [] ->
      from_file_models_path model_dir w = (Return (VStr dir), w1) ->
      exists r w', from_file (VStr name) model_dir w = (Return r, w'))
  /\ (forall dir st,
      exists r st', load_from_file (VStr dir) st = (Return r, st'))
  /\ (forall dir name cfg w,
      default_models_path w = (Return (VStr dir), w) ->
      dict_get (py "model_name") cfg = Some (VStr name) ->
      exists st', refresh {| self := cfg; outside := w |} = (Return None, st')).
Proof.
  split; [|split].
  - intros name model_dir dir w w1 Hname Hpath.
    unfold from_file.
    assert (E : py_eq_str (VStr name) (py "") || is_none (VStr name) = false).
    { cbn [py_eq_str is_none]. rewrite orb_false_r. apply str_eqb_neq. exact Hname. }
    rewrite E. rewrite (bind_returns _ _ _ _ _ Hpath).
    unfold lift_outcome at 1. cbn [as_path]. unfold bind at 1.
    unfold lift_outcome at 1. unfold bind at 1.
    match goal with
    | |- exists r w', try_except ?body ?handler ?s = _ =>
        destruct (try_except_returns body handler (fun _ => True) s) as (a & s' & H & _)
    end.
    + intros; exact I.
    + intros e s1. unfold bind. rewrite report_exception_run.
      eexists _, _. split; [reflexivity|exact I].
    + exists a, s'. exact H.
  - intros dir st. unfold load_from_file.
    unfold lift_outcome at 1. cbn [as_path]. unfold bind at 1.
    match goal with
    | |- exists r st', try_except ?body ?handler ?s = _ =>
        destruct (try_except_returns body handler (fun _ => True) s) as (a & s' & H & _)
    end.
    + intros; exact I.
    + intros e [c1 w1]. unfold bind.
      erewrite in_world_run; [|apply report_exception_run].
      eexists _, _. split; [reflexivity|exact I].
    + exists a, s'. exact H.
  - intros dir name cfg w Hpath Hname. unfold refresh.
    erewrite bind_returns; [|apply in_world_run; exact Hpath].
    erewrite bind_returns; [|apply getattr_run; exact Hname].
    unfold lift_outcome at 1. cbn [as_path]. unfold bind at 1.
    unfold lift_outcome at 1. unfold bind at 1.
    match goal with
    | |- exists st', try_except ?body ?handler ?s = _ =>
        destruct (try_except_returns body handler (fun r => r = None) s)
          as (a & s' & H & Ha)
    end.
    + intros a s' H.
      apply bind_inv in H as (x1 & s1 & _ & H).
      apply bind_inv in H as (x2 & s2 & _ & H).
      apply bind_inv in H as (x3 & s3 & _ & H).
      apply bind_inv in H as (x4 & s4 & _ & H).
      unfold ret in H. now inversion H.
    + intros e [c1 w1]. unfold bind.
      erewrite in_world_run; [|apply report_exception_run].
      eexists _, _. split; reflexivity.
    + cbv beta in Ha. subst a. exists s'. exact H.
Qed.

(** X8.  ['/'] and ['\'] are not alphanumeric, so a sanitised name holds
    no path separator: the model directory is a direct entry of the models
    path.  (Dots are kept.) *)
Theorem sanitize_name_drops_separators (name : str) :
  char_isalnum 47%N = false ->
  char_isalnum 92%N = false ->
  is_infix (py "/") (sanitize_name name) = false
  /\ is_infix backslash (sanitize_name name) = false.
Proof.
  intros H1 H2. rewrite sanitize_name_filter.
  change (py "/") with [47%N]. unfold backslash. rewrite !is_infix_char.
  split.
  - induction name as [|c s IH]; [reflexivity|]. cbn [filter].
    destruct (kept_char c) eqn:E; [|exact IH].
    cbn [existsb]. rewrite IH, orb_false_r.
    destruct (N.eqb 47 c) eqn:Ec; [|reflexivity].
    apply N.eqb_eq in Ec. subst c. unfold kept_char in E. rewrite H1 in E.
    discriminate E.
  - induction name as [|c s IH]; [reflexivity|]. cbn [filter].
    destruct (kept_char c) eqn:E; [|exact IH].
    cbn [existsb]. rewrite IH, orb_false_r.
    destruct (N.eqb 92 c) eqn:Ec; [|reflexivity].
    apply N.eqb_eq in Ec. subst c. unfold kept_char in E. rewrite H2 in E.
    discriminate E.
Qed.

Lemma fold_dict_set_fixed (entries : dict) :
  forall d,
    (forall k v, In (k, v) entries -> dict_get k d = Some v) ->
    fold_left (fun d e => dict_set (fst e) (snd e) d) entries d = d.
Proof.
  induction entries as [|[k v] entries IH]; intros d H; [reflexivity|].
  cbn [fold_left fst snd]. rewrite dict_set_same; [|apply H; now left].
  apply IH. intros k' v' Hin. apply H. now right.
Qed.

Lemma dict_get_in (entries : dict) :
  distinct (keys entries) = true ->
  forall k v, In (k, v) entries -> dict_get k entries = Some v.
Proof.
  induction entries as [|[k0 v0] entries IH]; intros Hd k v Hin; [destruct Hin|].
  cbn [keys map fst distinct] in Hd. apply andb_true_iff in Hd as [Hk0 Hd].
  apply negb_true_iff in Hk0. cbn [dict_get].
  destruct Hin as [Heq|Hin].
  - inversion Heq; subst. now rewrite str_eqb_refl.
  - destruct (str_eqb k k0) eqn:E.
    + apply str_eqb_eq in E. subst k0. exfalso.
      assert (Hex : existsb (str_eqb k) (keys entries) = true).
      { apply existsb_exists. exists k. split; [|apply str_eqb_refl].
        unfold keys. change k with (fst (k, v)). now apply in_map. }
      unfold keys in Hex. rewrite Hex in Hk0. discriminate Hk0.
    + now apply IH.
Qed.

(** X9.  Loading a dictionary of settled entries whose keys are fields of
    the object returns without saving or printing, stores every entry, and
    loading the same dictionary again changes nothing. *)
Theorem load_params_settled_twice (d : dict) (st : state) :
  forallb settled d = true ->
  distinct (keys d) = true ->
  (forall k, In k (keys d) -> dict_has k (self st) = true) ->
  exists st1,
    load_params (VDict d) st = (Return tt, st1)
    /\ load_params (VDict d) st1 = (Return tt, st1)
    /\ outside st1 = outside st
    /\ (forall k v, In (k, v) d -> dict_get k (self st1) = Some v).
Proof.
  intros Hs Hd Hk.
  set (loaded := fold_left (fun d e => dict_set (fst e) (snd e) d) d (self st)).
  assert (Hval : forall k v, In (k, v) d -> dict_get k loaded = Some v).
  { intros k v Hin. unfold loaded. rewrite fold_dict_set_get; [|exact Hd].
    now rewrite (dict_get_in d Hd k v Hin). }
  exists (with_self loaded st). split; [|split; [|split]].
  - unfold load_params. unfold lift_outcome at 1. cbn [items]. unfold bind at 1.
    unfold bind. rewrite load_params_loop_settled; [reflexivity|exact Hs|].
    intros k Hin. unfold hasattr. now rewrite (Hk k Hin).
  - unfold load_params. unfold lift_outcome at 1. cbn [items]. unfold bind at 1.
    unfold bind. rewrite load_params_loop_settled; [|exact Hs|].
    + cbn [self with_self]. rewrite fold_dict_set_fixed; [|exact Hval].
      destruct st; reflexivity.
    + intros k Hin. cbn [self with_self]. unfold hasattr.
      apply in_map_iff in Hin as ([k' v] & Hfst & Hin). cbn [fst] in Hfst. subst k'.
      unfold dict_has. now rewrite (Hval k v Hin).
  - destruct st; reflexivity.
  - exact Hval.
Qed.

(** X3.  A string stored under ["scheduler"] that is not one of the
    scheduler names is replaced by the first name that contains it, case
    ignored, and the replacement is printed; when no name contains it, it is
    stored as it is.  Either way [sched_swap] is set. *)
Theorem load_param_swaps_scheduler (b : bool) (s : str) (st : state) :
  existsb (py_eq_str (VStr s)) get_scheduler_names = false ->
  hasattr (self st) (py "scheduler") = true ->
  load_param b (py "scheduler", VStr s) st
  = match first_match s get_scheduler_names with
    | Some scheduler =>
        (Return true,
         {| self := dict_set (py "scheduler") (VStr scheduler) (self st);
            outside := with_log (log (outside st)
                                 ++ [Print_updating_scheduler_name scheduler])
                                (outside st) |})
    | None =>
        (Return true,
         {| self := dict_set (py "scheduler") (VStr s) (self st);
            outside := outside st |})
    end.
Proof.
  intros Hin Hattr. unfold load_param. cbn [fst snd].
  change (strip_db (py "scheduler")) with (py "scheduler").
  change (str_eqb (py "scheduler") (py "attention")) with false.
  change (str_eqb (py "scheduler") (py "scheduler")) with true.
  cbn [andb]. unfold bind at 1. unfold ret at 1. rewrite Hin. cbn [negb].
  unfold bind at 1. unfold bind at 1.
  rewrite swap_scheduler_takes_first_match.
  destruct (first_match s get_scheduler_names) as [scheduler|].
  - unfold ret at 1. unfold bind, gets, setattr, modify, ret, with_self.
    cbn [self outside fst snd]. rewrite Hattr. reflexivity.
  - unfold ret at 1. unfold bind, gets, setattr, modify, ret, with_self.
    cbn [self outside fst snd]. rewrite Hattr. destruct st; reflexivity.
Qed.

End More.

Lemma copy_kwarg_run (kwargs : dict) (name : str) (cfg : dict) (w : world) :
  copy_kwarg kwargs name {| self := cfg; outside := w |}
  = (Return tt, {| self := copied kwargs name cfg; outside := w |}).
Proof.
  unfold copy_kwarg, copied. destruct (dict_get name kwargs); reflexivity.
Qed.

Lemma dict_get_copied (kwargs : dict) (name f : str) (cfg : dict) :
  str_eqb f name = false -> dict_get f (copied kwargs name cfg) = dict_get f cfg.
Proof.
  intros H. unfold copied. destruct (dict_get name kwargs); [|reflexivity].
  now apply dict_get_set_other.
Qed.

Section Init.

Context {host : Host}.

Lemma base_init_train_lora (kwargs : dict) :
  dict_get (py "train_lora") (base_init kwargs)
  = Some (field_value kwargs (py "train_lora") (VBool false)).
Proof. reflexivity. Qed.

Lemma base_init_src (kwargs : dict) :
  dict_get (py "src") (base_init kwargs)
  = Some (field_value kwargs (py "src") (VStr [])).
Proof. reflexivity. Qed.

Lemma TrainingConfig_init_run
    (kwargs : dict) (name dir : str) (c0 : dict) (w w1 : world) :
  dict_get (py "model_name") kwargs = Some (VStr name) ->
  init_models_path kwargs w = (Return (VStr dir), w1) ->
  TrainingConfig_init kwargs {| self := c0; outside := w |}
  = (Return tt,
     {| self := constructed kwargs name dir;
        outside := with_directory
                     (path_join (path_join dir [sanitize_name name]) [py "working"])
                     w1 |}).
Proof.
  intros Hname Hpath.
  unfold TrainingConfig_init. unfold bind at 1. unfold modify at 1, with_self.
  cbn [self outside]. rewrite Hname.
  unfold bind at 1. unfold bind at 1. unfold lift_outcome at 1. cbn [as_path].
  erewrite bind_returns; [|apply in_world_run; exact Hpath].
  erewrite bind_returns; [|apply getattr_run; apply base_init_train_lora].
  set (c1 := if truthy (field_value kwargs (py "train_lora") (VBool false))
             then base_init kwargs
             else dict_set (py "lora_model_name") (VStr []) (base_init kwargs)).
  assert (Hlora : (if truthy (field_value kwargs (py "train_lora") (VBool false))
                   then ret tt
                   else setattr (py "lora_model_name") (VStr []))
                    {| self := base_init kwargs; outside := w1 |}
                  = (Return tt, {| self := c1; outside := w1 |})).
  { unfold c1. destruct (truthy _); reflexivity. }
  erewrite bind_returns; [|exact Hlora].
  unfold lift_outcome at 1. cbn [as_path]. unfold bind at 1.
  set (working_dir := path_join (path_join dir [sanitize_name name]) [py "working"]).
  assert (Hmk : forall k : M state unit,
             (present <- in_world (path_exists working_dir) ;;
              (if present then ret tt else in_world (makedirs working_dir)) ;;
              k) {| self := c1; outside := w1 |}
             = k {| self := c1; outside := with_directory working_dir w1 |}).
  { intros k. unfold bind at 1. unfold in_world at 1, path_exists, gets.
    cbn [self outside]. unfold with_directory.
    destruct (fs_get working_dir (fs w1)) eqn:E.
    - unfold bind, ret. reflexivity.
    - unfold bind, in_world, makedirs. cbn [self outside]. now rewrite E. }
  rewrite Hmk.
  unfold bind, setattr, modify, with_self. cbn [self outside].
  rewrite !copy_kwarg_run. reflexivity.
Qed.


(** X11.  On a configuration just constructed with a model name, the
    keyword [train_lora] being absent or a boolean,
    [get_pretrained_model_name_or_path] gives the working directory of the
    model, or the source checkpoint [src] when the keyword switches
    [train_lora] on. *)
Theorem fresh_config_pretrained_path
    (kwargs : dict) (name dir : str) (c0 : dict) (w w1 : world) (st' : state) :
  dict_get (py "model_name") kwargs = Some (VStr name) ->
  init_models_path kwargs w = (Return (VStr dir), w1) ->
  (dict_get (py "train_lora") kwargs = None
   \/ exists b, dict_get (py "train_lora") kwargs = Some (VBool b)) ->
  TrainingConfig_init kwargs {| self := c0; outside := w |} = (Return tt, st') ->
  get_pretrained_model_name_or_path st'
  = (Return (if truthy (field_value kwargs (py "train_lora") (VBool false))
             then field_value kwargs (py "src") (VStr [])
             else VStr (path_join (path_join dir [sanitize_name name])
                                  [py "working"])),
     st').
Proof.
  intros Hname Hpath _ Hinit.
  rewrite (TrainingConfig_init_run kwargs name dir c0 w w1 Hname Hpath) in Hinit.
  inversion Hinit; subst st'; clear Hinit.
  assert (Hl : dict_get (py "train_lora") (constructed kwargs name dir)
               = Some (field_value kwargs (py "train_lora") (VBool false))).
  { unfold constructed. cbv zeta. rewrite !dict_get_copied by reflexivity.
    rewrite !dict_get_set_other by reflexivity.
    destruct (truthy _); [apply base_init_train_lora|].
    rewrite dict_get_set_other by reflexivity. apply base_init_train_lora. }
  unfold get_pretrained_model_name_or_path.
  erewrite bind_returns; [|apply getattr_run; exact Hl].
  destruct (truthy (field_value kwargs (py "train_lora") (VBool false))) eqn:Et.
  - apply getattr_run. unfold constructed. cbv zeta. rewrite Et.
    rewrite dict_get_copied by reflexivity.
    unfold copied at 1. unfold field_value.
    destruct (dict_get (py "src") kwargs) as [v|] eqn:Es.
    + apply dict_get_set_same.
    + rewrite !dict_get_copied by reflexivity.
      rewrite !dict_get_set_other by reflexivity.
      rewrite base_init_src. unfold field_value. now rewrite Es.
  - apply getattr_run. unfold constructed. cbv zeta.
    rewrite !dict_get_copied by reflexivity. apply dict_get_set_same.
Qed.

End Init.


Lemma strip_db_maps_ui_keys_witness :
  strip_db (py "resolution") = py "resolution"
  /\ strip_db (py "db_" ++ py "resolution") = py "resolution".
Proof. apply (strip_db_maps_ui_keys (py "resolution")). reflexivity. Defined.

Lemma concepts_default_returns_valid_concepts_witness :
  concepts (-1) {| self := self two_concepts_state; outside := example_world |}
  = (Return (valid_concepts (py "models/dreambooth/m1") 0
               [ VDict [(py "instance_data_dir", VStr (py "/data/a"))];
                 VDict [(py "instance_data_dir", VStr (py "/data/b"));
                        (py "class_data_dir", VStr (py "/cls/b"))] ]),
     {| self := self two_concepts_state; outside := example_world |}).
Proof.
  apply (@concepts_default_returns_valid_concepts posix_host
           (self two_concepts_state) example_world (VStr (py "Default"))).
  - reflexivity.
  - reflexivity.
  - reflexivity.
  - reflexivity.
Defined.

Lemma sanitize_name_drops_separators_witness :
  is_infix (py "/") (sanitize_name (py "../a/b\c")) = false
  /\ is_infix backslash (sanitize_name (py "../a/b\c")) = false.
Proof.
  apply (@sanitize_name_drops_separators posix_host (py "../a/b\c")); reflexivity.
Defined.

Lemma load_params_settled_twice_witness :
  exists st1,
    load_params (VDict settled_params) m1_state = (Return tt, st1)
    /\ load_params (VDict settled_params) st1 = (Return tt, st1)
    /\ outside st1 = outside m1_state
    /\ (forall k v, In (k, v) settled_params -> dict_get k (self st1) = Some v).
Proof.
  apply (@load_params_settled_twice posix_host settled_params m1_state).
  - reflexivity.
  - reflexivity.
  - intros k [<-|[<-|[]]]; vm_compute; reflexivity.
Defined.

Lemma load_param_swaps_scheduler_witness :
  load_param false (py "scheduler", VStr (py "ddim")) m1_state
  = match first_match (py "ddim") get_scheduler_names with
    | Some scheduler =>
        (Return true,
         {| self := dict_set (py "scheduler") (VStr scheduler) (self m1_state);
            outside := with_log (log (outside m1_state)
                                 ++ [Print_updating_scheduler_name scheduler])
                                (outside m1_state) |})
    | None =>
        (Return true,
         {| self := dict_set (py "scheduler") (VStr (py "ddim")) (self m1_state);
            outside := outside m1_state |})
    end.
Proof.
  apply (@load_param_swaps_scheduler posix_host false (py "ddim") m1_state).
  - reflexivity.
  - vm_compute. reflexivity.
Defined.

Lemma fresh_config_pretrained_path_witness :
  get_pretrained_model_name_or_path m1_state
  = (Return (if truthy (field_value [(py "model_name", VStr (py "m1"))]
                          (py "train_lora") (VBool false))
             then field_value [(py "model_name", VStr (py "m1"))] (py "src") (VStr [])
             else VStr (path_join (path_join (py "models/dreambooth")
                                     [sanitize_name (py "m1")]) [py "working"])),
     m1_state).
Proof.
  apply (@fresh_config_pretrained_path posix_host
           [(py "model_name", VStr (py "m1"))] (py "m1")
           (py "models/dreambooth") [] example_world example_world).
  - reflexivity.
  - reflexivity.
  - left. reflexivity.
  - vm_compute. reflexivity.
Defined.
